(** * train_agent.py: evaluation runner and TensorBoard logging handler

    A shallow embedding of the parts of [train_agent.py] that decide how
    evaluation episodes are run ([run_localization_evaluation_episodes]) and
    how their log lines are turned into scalar metrics
    ([TensorBoardEvaluationLoggingHandler.emit]).

    Python values are modelled as they are at run time: [int] is [Z],
    [float] and [numpy.float64] are IEEE binary64 numbers ([spec_float] with
    precision 53), strings are [string].  Exceptions are explicit, mutable
    objects are threaded through a small state-and-exception monad, and the
    only unbounded loop of the file ([while not (done or t == max_episode_len)])
    runs on fuel. *)

From Stdlib Require Import ZArith List String Ascii Bool Lia.
From Stdlib Require Import Floats.SpecFloat.
From Stdlib Require Decimal DecimalString DecimalPos.
From stdpp Require Import base list.
Import ListNotations.
Local Open Scope Z_scope.

(** ** Python numbers, exceptions and the builtins [int], [float] and [+] *)
Module Py.

Inductive exn := ValueError | IndexError | OverflowError.

Inductive result (A : Type) :=
| Ok (a : A)
| Err (e : exn).
Arguments Ok {A} a.
Arguments Err {A} e.

Definition rbind {A B} (r : result A) (k : A -> result B) : result B :=
  match r with
  | Ok a => k a
  | Err e => Err e
  end.

(** binary64 *)
Definition float := spec_float.
Definition prec := 53.
Definition emax := 1024.

Definition fadd : float -> float -> float := SFadd prec emax.
Definition fdiv : float -> float -> float := SFdiv prec emax.

(** The double nearest to an integer (ties to even); infinite when the
    integer is out of range. *)
Definition float_of_Z (z : Z) : float := binary_normalize prec emax z 0 false.

(** Conversion of a Python [int] to a double: [OverflowError] when the
    integer is too large. *)
Definition int_to_double (z : Z) : result float :=
  match float_of_Z z with
  | S754_infinity _ => Err OverflowError
  | f => Ok f
  end.

(** Numeric objects: the builtin [int] and [float], and a boxed
    [numpy.float64]. *)
Inductive pynum :=
| PyInt (z : Z)
| PyFloat (f : float)
| NpFloat (f : float).

(** Objects handed to [logger.info] and to [add_scalar]. *)
Inductive pyval :=
| VNum (n : pynum)
| VStr (s : string).

Definition is_plain_float (v : pyval) : bool :=
  match v with
  | VNum (PyFloat _) => true
  | _ => false
  end.

(** A [float] or a [numpy.float64], as opposed to an [int]. *)
Definition is_floating (x : pynum) : bool :=
  match x with
  | PyInt _ => false
  | _ => true
  end.

(** [float(x)] on a numeric object. *)
Definition builtin_float (x : pynum) : result float :=
  match x with
  | PyInt z => int_to_double z
  | PyFloat f => Ok f
  | NpFloat f => Ok f
  end.

(** [a + b].  Two [int]s add exactly; an [int] meeting a float is converted
    first; the sum is a [numpy.float64] as soon as one operand is. *)
Definition py_add (a b : pynum) : result pynum :=
  match a, b with
  | PyInt x, PyInt y => Ok (PyInt (x + y))
  | PyInt x, PyFloat g => rbind (int_to_double x) (fun f => Ok (PyFloat (fadd f g)))
  | PyFloat f, PyInt y => rbind (int_to_double y) (fun g => Ok (PyFloat (fadd f g)))
  | PyFloat f, PyFloat g => Ok (PyFloat (fadd f g))
  | PyInt x, NpFloat g => rbind (int_to_double x) (fun f => Ok (NpFloat (fadd f g)))
  | NpFloat f, PyInt y => rbind (int_to_double y) (fun g => Ok (NpFloat (fadd f g)))
  | PyFloat f, NpFloat g => Ok (NpFloat (fadd f g))
  | NpFloat f, PyFloat g => Ok (NpFloat (fadd f g))
  | NpFloat f, NpFloat g => Ok (NpFloat (fadd f g))
  end.

(** *** Parsing decimal text: [int(s)] and [float(s)]

    Characters are bytes: the digits are the ASCII ones, the whitespace
    that is stripped is the tab, the line feed, the vertical tab, the form
    feed, the carriage return and the space, and the limit on the number of
    digits of an [int] literal is left out. *)

Definition code (c : ascii) : Z := Z.of_nat (nat_of_ascii c).

Definition is_space (c : ascii) : bool :=
  let n := code c in
  ((9 <=? n) && (n <=? 13)) || (n =? 32).

Definition digit_of (c : ascii) : option Z :=
  let n := code c in
  if (48 <=? n) && (n <=? 57) then Some (n - 48) else None.

Fixpoint lstrip (s : string) : string :=
  match s with
  | String c s' => if is_space c then lstrip s' else s
  | EmptyString => s
  end.

Fixpoint rstrip (s : string) : string :=
  match s with
  | String c s' =>
      match rstrip s' with
      | EmptyString => if is_space c then EmptyString else String c EmptyString
      | r => String c r
      end
  | EmptyString => EmptyString
  end.

Definition strip (s : string) : string := rstrip (lstrip s).

(** Digits after a first digit, single underscores allowed between digits.
    [acc] is the value read so far and [cnt] the number of digits. *)
Fixpoint digit_run (s : string) (acc cnt : Z) : Z * Z * string :=
  match s with
  | String c s' =>
      match digit_of c with
      | Some d => digit_run s' (10 * acc + d) (cnt + 1)
      | None =>
          if Ascii.eqb c "_" then
            match s' with
            | String c2 s'' =>
                match digit_of c2 with
                | Some d => digit_run s'' (10 * acc + d) (cnt + 1)
                | None => (acc, cnt, s)
                end
            | EmptyString => (acc, cnt, s)
            end
          else (acc, cnt, s)
      end
  | EmptyString => (acc, cnt, s)
  end.

(** digitpart ::= digit (["_"] digit)*, continuing the value [acc]. *)
Definition digitpart (acc : Z) (s : string) : option (Z * Z * string) :=
  match s with
  | String c s' =>
      match digit_of c with
      | Some d => Some (digit_run s' (10 * acc + d) 1)
      | None => None
      end
  | EmptyString => None
  end.

Definition sign_of (s : string) : bool * string :=
  match s with
  | String c s' =>
      if Ascii.eqb c "-" then (true, s')
      else if Ascii.eqb c "+" then (false, s')
      else (false, s)
  | EmptyString => (false, s)
  end.

(** [int(s)], base 10. *)
Definition builtin_int (s : string) : result Z :=
  let '(neg, r) := sign_of (strip s) in
  match digitpart 0 r with
  | Some (v, _, EmptyString) => Ok (if neg then - v else v)
  | _ => Err ValueError
  end.

Definition lower (c : ascii) : ascii :=
  let n := code c in
  if (65 <=? n) && (n <=? 90) then ascii_of_nat (Z.to_nat (n + 32)) else c.

Fixpoint lower_string (s : string) : string :=
  match s with
  | String c s' => String (lower c) (lower_string s')
  | EmptyString => EmptyString
  end.

(** The double nearest to [m * 10^e10] for [m >= 0], with sign [neg]. *)
Definition decimal_to_float (neg : bool) (m e10 : Z) : float :=
  match m with
  | Zpos p =>
      if 0 <=? e10 then binary_normalize prec emax (cond_Zopp neg (m * 10 ^ e10)) 0 false
      else fdiv (S754_finite neg p 0) (S754_finite false (Z.to_pos (10 ^ (- e10))) 0)
  | _ => S754_zero neg
  end.

(** The optional exponent of a float literal; [None] when an exponent
    marker is not followed by a well-formed exponent. *)
Definition exponent_of (s : string) : option (Z * string) :=
  match s with
  | String c s' =>
      if Ascii.eqb (lower c) "e" then
        let '(eneg, r) := sign_of s' in
        match digitpart 0 r with
        | Some (v, _, rest) => Some (if eneg then - v else v, rest)
        | None => None
        end
      else Some (0, s)
  | EmptyString => Some (0, s)
  end.

(** [digitpart] [.] [digitpart], at least one digit in all: mantissa,
    number of fraction digits and the rest of the text. *)
Definition point_float (s : string) : option (Z * Z * string) :=
  match digitpart 0 s with
  | Some (iv, _, String c r) =>
      if Ascii.eqb c "." then
        match digitpart iv r with
        | Some (m, fn, rest) => Some (m, fn, rest)
        | None => Some (iv, 0, r)
        end
      else Some (iv, 0, String c r)
  | Some (iv, _, EmptyString) => Some (iv, 0, EmptyString)
  | None =>
      match s with
      | String c r =>
          if Ascii.eqb c "." then digitpart 0 r else None
      | EmptyString => None
      end
  end.

(** [float(s)]. *)
Definition float_of_string (s : string) : result float :=
  let '(neg, r) := sign_of (strip s) in
  let l := lower_string r in
  if (String.eqb l "inf" || String.eqb l "infinity")%bool then Ok (S754_infinity neg)
  else if String.eqb l "nan" then Ok S754_nan
  else
    match point_float r with
    | Some (m, fn, r1) =>
        match exponent_of r1 with
        | Some (ex, EmptyString) => Ok (decimal_to_float neg m (ex - fn))
        | _ => Err ValueError
        end
    | None => Err ValueError
    end.

End Py.
Export Py.

(** ** The two regular expressions of [emit] *)
Module Re.

(** Both patterns are sequences of literal text and of one kind of
    capturing group: a starred negated class, any run of characters other
    than the space. *)
Inductive piece :=
| Lit (s : string)
| Group.

Fixpoint strip_prefix (l s : string) : option string :=
  match l with
  | EmptyString => Some s
  | String a l' =>
      match s with
      | String b s' => if Ascii.eqb a b then strip_prefix l' s' else None
      | EmptyString => None
      end
  end.

Definition non_space (c : ascii) : bool := negb (Ascii.eqb c " ").

(** Length of the longest prefix without a space. *)
Fixpoint run_length (s : string) : nat :=
  match s with
  | String c s' => if non_space c then S (run_length s') else O
  | EmptyString => O
  end.

Fixpoint take (k : nat) (s : string) : string :=
  match k, s with
  | S k', String c s' => String c (take k' s')
  | _, _ => EmptyString
  end.

Fixpoint drop (k : nat) (s : string) : string :=
  match k, s with
  | S k', String _ s' => drop k' s'
  | _, _ => s
  end.

(** A greedy group: the longest candidate first, then shorter ones. *)
Fixpoint backtrack (k : nat) (cont : string -> option (list string)) (s : string)
  : option (list string) :=
  match cont (drop k s) with
  | Some gs => Some (take k s :: gs)
  | None =>
      match k with
      | O => None
      | S k' => backtrack k' cont s
      end
  end.

(** Match at the start of [s]; the captured groups in order. *)
Fixpoint match_here (ps : list piece) (s : string) : option (list string) :=
  match ps with
  | [] => Some []
  | Lit l :: ps' =>
      match strip_prefix l s with
      | Some rest => match_here ps' rest
      | None => None
      end
  | Group :: ps' => backtrack (run_length s) (match_here ps') s
  end.

(** [re.search]: the leftmost match. *)
Fixpoint search (ps : list piece) (s : string) : option (list string) :=
  match match_here ps s with
  | Some gs => Some gs
  | None =>
      match s with
      | String _ s' => search ps s'
      | EmptyString => None
      end
  end.

(** [match.group(n)] for [n >= 1]. *)
Definition group (gs : list string) (n : nat) : string :=
  nth (pred n) gs EmptyString.

(** The pattern of line 136: the literal text [The best score is updated ],
    a group, the literal [ -> ] and a group. *)
Definition new_best_re : list piece :=
  [Lit "The best score is updated "; Group; Lit " -> "; Group].

(** The pattern of line 142: five groups, introduced by [evaluation episode ],
    [ length:], [ R:], [ IoU:] and [ Max_IoU:]. *)
Definition reward_re : list piece :=
  [Lit "evaluation episode "; Group; Lit " length:"; Group; Lit " R:"; Group;
   Lit " IoU:"; Group; Lit " Max_IoU:"; Group].

End Re.

(** ** State, exceptions and fuel *)

(** A computation over a mutable store [S]: it finishes with a value,
    raises (the store keeps what was written before), or exhausts the
    fuel given to a [while] loop. *)
Inductive outcome (S A : Type) :=
| Finished (a : A) (s : S)
| Raised (e : exn) (s : S)
| OutOfFuel.
Arguments Finished {S A} a s.
Arguments Raised {S A} e s.
Arguments OutOfFuel {S A}.

Definition M (S A : Type) : Type := S -> outcome S A.

Definition ret {S A} (a : A) : M S A := fun s => Finished a s.

Definition bind {S A B} (c : M S A) (k : A -> M S B) : M S B :=
  fun s =>
    match c s with
    | Finished a s' => k a s'
    | Raised e s' => Raised e s'
    | OutOfFuel => OutOfFuel
    end.

Definition lift {S A} (r : result A) : M S A :=
  fun s =>
    match r with
    | Ok a => Finished a s
    | Err e => Raised e s
    end.

Definition gets {S A} (f : S -> A) : M S A := fun s => Finished (f s) s.

Definition modify {S} (f : S -> S) : M S unit := fun s => Finished tt (f s).

#[local] Notation "'do' x <- c ; k" := (bind c (fun x => k))
  (at level 10, x name, c at level 100, k at level 200).
#[local] Notation "'run' c ; k" := (bind c (fun _ => k))
  (at level 10, c at level 100, k at level 200).

(** ** TensorBoardEvaluationLoggingHandler *)
Module Handler.

(** One call [summary_writer.add_scalar(tag, value, global_step)]. *)
Record Scalar := mkScalar {
  tag : string;
  value : pyval;
  global_step : Z
}.

Record TensorBoardEvaluationLoggingHandler := mkHandler {
  eval_run_count : Z;
  episode_rewards : list float;
  episode_lengths : list float;
  episode_ious : list float;
  episode_max_ious : list float
}.

(** What [emit] reads and writes: the handler's own fields, the step
    counter [t] of the agent it holds a reference to, and the calls received
    by the summary writer, oldest first. *)
Record store := mkStore {
  self : TensorBoardEvaluationLoggingHandler;
  agent_t : Z;
  summary_writer : list Scalar
}.

(** [np.empty(n)]: [n] slots holding whatever [junk] the memory had. *)
Definition np_empty (n : Z) (junk : nat -> float) : result (list float) :=
  if n <? 0 then Err ValueError else Ok (map junk (seq 0 (Z.to_nat n))).

(** [__init__] (lines 124-133). *)
Definition init (eval_run_count : Z) (j1 j2 j3 j4 : nat -> float)
  : result TensorBoardEvaluationLoggingHandler :=
  rbind (np_empty eval_run_count j1) (fun rewards =>
  rbind (np_empty eval_run_count j2) (fun lengths =>
  rbind (np_empty eval_run_count j3) (fun ious =>
  rbind (np_empty eval_run_count j4) (fun max_ious =>
  Ok (mkHandler eval_run_count rewards lengths ious max_ious))))).

(** An integer index into an array of [n] slots: a negative index counts
    from the end, an index outside [-n, n) raises. *)
Definition np_index (n : nat) (i : Z) : result nat :=
  let n := Z.of_nat n in
  if (0 <=? i) && (i <? n) then Ok (Z.to_nat i)
  else if (- n <=? i) && (i <? 0) then Ok (Z.to_nat (i + n))
  else Err IndexError.

(** [arr[i] = v] on a one-dimensional float64 array: the slot is located
    first, then [v] is converted to a double and written. *)
Definition np_setitem (arr : list float) (i : Z) (v : pynum) : result (list float) :=
  rbind (np_index (length arr) i) (fun k =>
  rbind (builtin_float v) (fun f =>
  Ok (<[k := f]> arr))).

Definition set_episode_rewards (l : list float) (h : TensorBoardEvaluationLoggingHandler) :=
  mkHandler (eval_run_count h) l (episode_lengths h) (episode_ious h) (episode_max_ious h).
Definition set_episode_lengths (l : list float) (h : TensorBoardEvaluationLoggingHandler) :=
  mkHandler (eval_run_count h) (episode_rewards h) l (episode_ious h) (episode_max_ious h).
Definition set_episode_ious (l : list float) (h : TensorBoardEvaluationLoggingHandler) :=
  mkHandler (eval_run_count h) (episode_rewards h) (episode_lengths h) l (episode_max_ious h).
Definition set_episode_max_ious (l : list float) (h : TensorBoardEvaluationLoggingHandler) :=
  mkHandler (eval_run_count h) (episode_rewards h) (episode_lengths h) (episode_ious h) l.

Definition update_self (f : TensorBoardEvaluationLoggingHandler -> TensorBoardEvaluationLoggingHandler)
  : M store unit :=
  modify (fun st => mkStore (f (self st)) (agent_t st) (summary_writer st)).

(** [self.<field>[i] = v] *)
Definition assign (field : TensorBoardEvaluationLoggingHandler -> list float)
    (set : list float -> TensorBoardEvaluationLoggingHandler -> TensorBoardEvaluationLoggingHandler)
    (i : Z) (v : pynum) : M store unit :=
  do arr <- gets (fun st => field (self st));
  do arr' <- lift (np_setitem arr i v);
  update_self (set arr').

Definition add_scalar (name : string) (v : pyval) (step : Z) : M store unit :=
  modify (fun st =>
    mkStore (self st) (agent_t st) (summary_writer st ++ [mkScalar name v step])).

(** The five locals of lines 144-148, converted from the captured text in
    the order of the source; the first conversion that fails raises. *)
Record EpisodeResult := mkEpisodeResult {
  episode_number : Z;
  episode_length : Z;
  episode_reward : float;
  episode_iou : float;
  episode_max_iou : float
}.

Definition episode_fields (match_reward : list string) : result EpisodeResult :=
  rbind (builtin_int (Re.group match_reward 1)) (fun number =>
  rbind (builtin_int (Re.group match_reward 2)) (fun len =>
  rbind (float_of_string (Re.group match_reward 3)) (fun reward =>
  rbind (float_of_string (Re.group match_reward 4)) (fun iou =>
  rbind (float_of_string (Re.group match_reward 5)) (fun max_iou =>
  Ok (mkEpisodeResult number len reward iou max_iou)))))).

Section Emit.

(** [np.mean], [np.median] and [np.var] on a float64 array; each returns a
    [numpy.float64]. *)
Variables np_mean np_median np_var : list float -> float.

(** The seven calls of lines 157-163. *)
Definition flush (step_count : Z) : M store unit :=
  do h <- gets self;
  run add_scalar "evaluation_length_mean" (VNum (NpFloat (np_mean (episode_lengths h)))) step_count;
  do h <- gets self;
  run add_scalar "evaluation_reward_mean" (VNum (NpFloat (np_mean (episode_rewards h)))) step_count;
  do h <- gets self;
  run add_scalar "evaluation_reward_median" (VNum (NpFloat (np_median (episode_rewards h)))) step_count;
  do h <- gets self;
  run add_scalar "evaluation_reward_variance" (VNum (NpFloat (np_var (episode_rewards h)))) step_count;
  do h <- gets self;
  run add_scalar "evaluation_iou_mean" (VNum (NpFloat (np_mean (episode_ious h)))) step_count;
  do h <- gets self;
  run add_scalar "evaluation_iou_median" (VNum (NpFloat (np_median (episode_ious h)))) step_count;
  do h <- gets self;
  add_scalar "evaluation_max_iou_mean" (VNum (NpFloat (np_mean (episode_max_ious h)))) step_count.

(** First block of [emit] (lines 136-140).  The captured text goes to
    [add_scalar] as it is. *)
Definition emit_new_best (message : string) : M store unit :=
  match Re.search Re.new_best_re message with
  | Some match_new_best =>
      let new_best_score := Re.group match_new_best 2 in
      do step_count <- gets agent_t;
      add_scalar "evaluation_new_best_score" (VStr new_best_score) step_count
  | None => ret tt
  end.

(** Second block of [emit] (lines 142-163). *)
Definition emit_reward (message : string) : M store unit :=
  match Re.search Re.reward_re message with
  | Some match_reward =>
      do r <- lift (episode_fields match_reward);
      run assign episode_lengths set_episode_lengths (episode_number r) (PyInt (episode_length r));
      run assign episode_rewards set_episode_rewards (episode_number r) (PyFloat (episode_reward r));
      run assign episode_ious set_episode_ious (episode_number r) (PyFloat (episode_iou r));
      run assign episode_max_ious set_episode_max_ious (episode_number r) (PyFloat (episode_max_iou r));
      do n <- gets (fun st => eval_run_count (self st));
      if episode_number r =? n - 1 then
        do step_count <- gets agent_t;
        flush step_count
      else ret tt
  | None => ret tt
  end.

(** [emit] (lines 135-164), on the text of [record.getMessage()]. *)
Definition emit (message : string) : M store unit :=
  run emit_new_best message;
  emit_reward message.

(** The seven scalars of lines 157-163 for the buffers of [h], oldest
    first. *)
Definition aggregates (h : TensorBoardEvaluationLoggingHandler) (step_count : Z) : list Scalar :=
  [ mkScalar "evaluation_length_mean" (VNum (NpFloat (np_mean (episode_lengths h)))) step_count;
    mkScalar "evaluation_reward_mean" (VNum (NpFloat (np_mean (episode_rewards h)))) step_count;
    mkScalar "evaluation_reward_median" (VNum (NpFloat (np_median (episode_rewards h)))) step_count;
    mkScalar "evaluation_reward_variance" (VNum (NpFloat (np_var (episode_rewards h)))) step_count;
    mkScalar "evaluation_iou_mean" (VNum (NpFloat (np_mean (episode_ious h)))) step_count;
    mkScalar "evaluation_iou_median" (VNum (NpFloat (np_median (episode_ious h)))) step_count;
    mkScalar "evaluation_max_iou_mean" (VNum (NpFloat (np_mean (episode_max_ious h)))) step_count ].

(** A logger delivering several records in turn. *)
Fixpoint emit_all (messages : list string) : M store unit :=
  match messages with
  | [] => ret tt
  | m :: rest => run emit m; emit_all rest
  end.

End Emit.

(** The handler as [main] builds it (lines 70 and 80): sized by the
    constant 10, whatever [CONFIG['eval_n_episodes']], which line 99 hands
    to the trainer, is. *)
Definition main_handler (eval_n_episodes : Z) (j1 j2 j3 j4 : nat -> float)
  : result TensorBoardEvaluationLoggingHandler :=
  let eval_run_count := 10 in
  init eval_run_count j1 j2 j3 j4.

Definition aggregate_tags : list string :=
  [ "evaluation_length_mean"; "evaluation_reward_mean"; "evaluation_reward_median";
    "evaluation_reward_variance"; "evaluation_iou_mean"; "evaluation_iou_median";
    "evaluation_max_iou_mean" ]%string.

(** The four buffers have [eval_run_count] slots, as [__init__] leaves
    them. *)
Definition well_formed (h : TensorBoardEvaluationLoggingHandler) : Prop :=
  0 <= eval_run_count h /\
  length (episode_rewards h) = Z.to_nat (eval_run_count h) /\
  length (episode_lengths h) = Z.to_nat (eval_run_count h) /\
  length (episode_ious h) = Z.to_nat (eval_run_count h) /\
  length (episode_max_ious h) = Z.to_nat (eval_run_count h).

(** The second pattern matches [message], every field converts, the length
    fits a double, and the index is [i]. *)
Definition reward_line (message : string) (i : Z) : Prop :=
  exists gs r lf,
    Re.search Re.reward_re message = Some gs /\
    episode_fields gs = Ok r /\
    episode_number r = i /\
    int_to_double (episode_length r) = Ok lf.

(** An episode line and nothing else: the first pattern does not match. *)
Definition episode_line (message : string) (i : Z) : Prop :=
  Re.search Re.new_best_re message = None /\ reward_line message i.

(** A stand-in for the numpy statistics where an example needs a concrete
    function: the sum from left to right divided by the number of slots. *)
Definition naive_mean (l : list float) : float :=
  fdiv (fold_left fadd l (S754_zero false)) (float_of_Z (Z.of_nat (length l))).

(** [f] is a finite positive double in canonical form lying within half a
    unit in the last place of the rational [num / den]. *)
Definition within_half_ulp (f : float) (num den : Z) : Prop :=
  match f with
  | S754_finite false m e =>
      bounded prec emax m e = true /\ e <= 0 /\
      2 * Z.abs (den * Zpos m - num * 2 ^ (- e)) <= den
  | _ => False
  end.

Definition zeros (k : nat) : list float := repeat (S754_zero false) k.

(** A handler for rounds of [k] episodes with zeroed buffers, an agent at
    step [t] and a writer that has received nothing yet. *)
Definition sample_store (k : nat) (t : Z) : store :=
  mkStore (mkHandler (Z.of_nat k) (zeros k) (zeros k) (zeros k) (zeros k)) t [].

(** The log lines of one evaluation round of five episodes. *)
Definition round_of_five : list string :=
  [ "evaluation episode 0 length:7 R:1.5 IoU:0.5 Max_IoU:0.75";
    "evaluation episode 1 length:3 R:4.5 IoU:0.82 Max_IoU:0.91";
    "evaluation episode 2 length:40 R:-2.0 IoU:0.0 Max_IoU:0.25";
    "evaluation episode 3 length:12 R:4.5 IoU:0.82 Max_IoU:0.91";
    "evaluation episode 4 length:1 R:3.0 IoU:1.0 Max_IoU:1.0" ]%string.

End Handler.

(** ** run_localization_evaluation_episodes *)
Module Evaluator.

(** What [logger.info(msg, *args)] receives. *)
Record LogRecord := mkLogRecord {
  msg : string;
  args : list pyval
}.

(** The calls made on the environment, the agent and the logger. *)
Inductive call :=
| EnvReset
| AgentAct
| EnvStep
| AgentStopEpisode
| LoggerInfo (r : LogRecord).

(** The environment as the evaluator uses it: [reset()], [step(a)] giving
    the observation, the reward and [done] (the fourth component, [info],
    is never read), and the attributes [iou] and [max_iou]. *)
Class Environment (E Obs Act : Type) := {
  reset : E -> E * Obs;
  step : E -> Act -> E * (Obs * pynum * bool);
  iou : E -> pynum;
  max_iou : E -> pynum
}.

(** The agent as the evaluator uses it. *)
Class Agent (A Obs Act : Type) := {
  act : A -> Obs -> A * Act;
  stop_episode : A -> A
}.

Definition range (n : Z) : list Z := map Z.of_nat (seq 0 (Z.to_nat n)).

Section Run.

Context {E A Obs Act : Type} `{Environment E Obs Act} `{Agent A Obs Act}.

Record world := mkWorld {
  env : E;
  agent : A;
  calls : list call
}.

Definition env_reset : M world Obs :=
  fun w =>
    let '(e, obs) := reset (env w) in
    Finished obs (mkWorld e (agent w) (calls w ++ [EnvReset])).

Definition agent_act (obs : Obs) : M world Act :=
  fun w =>
    let '(a, action) := act (agent w) obs in
    Finished action (mkWorld (env w) a (calls w ++ [AgentAct])).

Definition env_step (a : Act) : M world (Obs * pynum * bool) :=
  fun w =>
    let '(e, r) := step (env w) a in
    Finished r (mkWorld e (agent w) (calls w ++ [EnvStep])).

Definition agent_stop_episode : M world unit :=
  modify (fun w => mkWorld (env w) (stop_episode (agent w)) (calls w ++ [AgentStopEpisode])).

Definition logger_info (fmt : string) (a : list pyval) : M world unit :=
  modify (fun w => mkWorld (env w) (agent w) (calls w ++ [LoggerInfo (mkLogRecord fmt a)])).

(** [t == max_episode_len]; never true for [None]. *)
Definition at_cap (t : Z) (max_episode_len : option Z) : bool :=
  match max_episode_len with
  | Some m => t =? m
  | None => false
  end.

(** Lines 189-193, one unit of fuel per iteration. *)
Fixpoint while_loop (fuel : nat) (max_episode_len : option Z)
    (obs : Obs) (done : bool) (test_r : pynum) (t : Z) : M world (bool * pynum * Z) :=
  if done || at_cap t max_episode_len then ret (done, test_r, t)
  else
    match fuel with
    | O => fun _ => OutOfFuel
    | S fuel' =>
        do a <- agent_act obs;
        do r <- env_step a;
        do test_r' <- lift (py_add test_r (snd (fst r)));
        while_loop fuel' max_episode_len (fst (fst r)) (snd r) test_r' (t + 1)
    end.

(** The [done] flags that the first [k] steps report when the agent acts
    on each observation in turn, starting from [obs]: what the environment
    and the agent do, whatever loop drives them. *)
Fixpoint dones (k : nat) (obs : Obs) (e : E) (a : A) : list bool :=
  match k with
  | O => []
  | S k' =>
      let '(a', action) := act a obs in
      let '(e', r) := step e action in
      snd r :: dones k' (fst (fst r)) e' a'
  end.

(** Lines 185-200: the body of the [for] loop for episode [i]. *)
Definition episode (fuel : nat) (max_episode_len : option Z) (i : Z) (scores : list pynum)
  : M world (list pynum) :=
  do obs <- env_reset;
  do r <- while_loop fuel max_episode_len obs false (PyInt 0) 0;
  let done := fst (fst r) in
  let test_r := snd (fst r) in
  let t := snd r in
  run agent_stop_episode;
  do iou_ <- (if done
              then do x <- gets (fun w => iou (env w)); lift (builtin_float x)
              else lift (builtin_float (PyInt 0)));
  do max_iou_ <- (do x <- gets (fun w => max_iou (env w)); lift (builtin_float x));
  do score <- lift (builtin_float test_r);
  let scores := scores ++ [PyFloat score] in
  run logger_info "evaluation episode %s length:%s R:%s IoU:%s Max_IoU:%s"
        [VNum (PyInt i); VNum (PyInt t); VNum test_r;
         VNum (PyFloat iou_); VNum (PyFloat max_iou_)];
  ret scores.

Fixpoint for_episodes (fuel : nat) (max_episode_len : option Z) (indices : list Z)
    (scores : list pynum) : M world (list pynum) :=
  match indices with
  | [] => ret scores
  | i :: rest =>
      do scores' <- episode fuel max_episode_len i scores;
      for_episodes fuel max_episode_len rest scores'
  end.

(** The function itself; [n_steps] is accepted and never read.  The
    environment and the agent are those of the store, and the logger is the
    record of calls. *)
Definition run_localization_evaluation_episodes (fuel : nat)
    (n_steps : option Z) (n_episodes : Z) (max_episode_len : option Z)
  : M world (list pynum) :=
  for_episodes fuel max_episode_len (range n_episodes) [].

End Run.

(** *** What one run looks like from outside *)

(** The facts of one finished episode: its index, the number of steps
    taken, the last [done], the accumulated return as the loop left it, and
    the three converted values. *)
Record EpisodeRun := mkEpisodeRun {
  run_index : Z;
  run_length : nat;
  run_done : bool;
  run_return : pynum;
  run_iou : float;
  run_max_iou : float;
  run_score : float
}.

(** The record that line 200 hands to the logger. *)
Definition log_of (e : EpisodeRun) : LogRecord :=
  mkLogRecord "evaluation episode %s length:%s R:%s IoU:%s Max_IoU:%s"
    [VNum (PyInt (run_index e)); VNum (PyInt (Z.of_nat (run_length e)));
     VNum (run_return e); VNum (PyFloat (run_iou e)); VNum (PyFloat (run_max_iou e))].

(** The calls of [k] iterations of the [while] loop. *)
Fixpoint steps_calls (k : nat) : list call :=
  match k with
  | O => []
  | S k' => AgentAct :: EnvStep :: steps_calls k'
  end.

(** The calls of one episode, in order. *)
Definition calls_of (e : EpisodeRun) : list call :=
  EnvReset :: steps_calls (run_length e) ++ [AgentStopEpisode; LoggerInfo (log_of e)].

(** The records received by the logger, oldest first. *)
Fixpoint log_records (cs : list call) : list LogRecord :=
  match cs with
  | [] => []
  | LoggerInfo r :: rest => r :: log_records rest
  | _ :: rest => log_records rest
  end.

(** The number of calls to [agent.stop_episode()]. *)
Fixpoint stop_count (cs : list call) : nat :=
  match cs with
  | [] => O
  | AgentStopEpisode :: rest => S (stop_count rest)
  | _ :: rest => stop_count rest
  end.

(** An environment whose rewards and whose [iou] and [max_iou] attributes
    are floats, never [int]s. *)
Definition float_valued {E Obs Act : Type} (environment : Environment E Obs Act) : Prop :=
  (forall e a, is_floating (snd (fst (snd (step e a)))) = true) /\
  (forall e, is_floating (iou e) = true) /\
  (forall e, is_floating (max_iou e) = true).

(** The accumulated return on such an environment: the initial [int] 0 or
    a float. *)
Definition safe_return (r : pynum) : Prop := r = PyInt 0 \/ is_floating r = true.

(** *** Stub collaborators *)

(** An environment that counts the steps of the current episode, pays the
    reward [R] at each step and reports [done] from step [k] on; its [iou]
    and [max_iou] attributes are fixed numpy values. *)
Definition stub_env (R : pynum) (k : nat) (i m : float) : Environment nat unit unit := {|
  reset := fun _ => (O, tt);
  step := fun n _ => (S n, (tt, R, (k <=? S n)%nat));
  iou := fun _ => NpFloat i;
  max_iou := fun _ => NpFloat m
|}.

(** An environment that never reports [done]. *)
Definition endless_env (R : pynum) : Environment unit unit unit := {|
  reset := fun _ => (tt, tt);
  step := fun _ _ => (tt, (tt, R, false));
  iou := fun _ => PyFloat (S754_zero false);
  max_iou := fun _ => PyFloat (S754_zero false)
|}.

(** An agent that counts its calls to [stop_episode]. *)
Definition stub_agent : Agent nat unit unit := {|
  act := fun n _ => (n, tt);
  stop_episode := S
|}.

(** The evaluator on the stubs, from a fresh store. *)
Definition stub_run (R : pynum) (k : nat) (i m : float) (fuel : nat) (n_episodes : Z)
    (max_episode_len : option Z) : outcome world (list pynum) :=
  @run_localization_evaluation_episodes nat nat unit unit (stub_env R k i m) stub_agent
    fuel None n_episodes max_episode_len (mkWorld O O []).

Definition stub_episode (R : pynum) (k : nat) (i m : float) (fuel : nat)
    (max_episode_len : option Z) : outcome world (list pynum) :=
  @episode nat nat unit unit (stub_env R k i m) stub_agent
    fuel max_episode_len 0 [] (mkWorld O O []).

Definition endless_run (R : pynum) (fuel : nat) (n_episodes : Z)
  : outcome world (list pynum) :=
  @run_localization_evaluation_episodes unit nat unit unit (endless_env R) stub_agent
    fuel None n_episodes None (mkWorld tt O []).

End Evaluator.

(** ** The step hook and the handler on one writer *)
Module StepHook.

Import Handler.

(** [TensorBoardLoggingStepHook.__call__] (lines 115-120).  The hook and
    the handler are given the same writer at lines 79-80.  [average_q] and
    [average_loss] are the agent's attributes as the call reads them; the
    arguments [env] and [step] are accepted and never read. *)
Definition call (average_q average_loss : pynum) (step : Z) : M store unit :=
  do step_count <- gets agent_t;
  run add_scalar "average_q" (VNum average_q) step_count;
  add_scalar "average_loss" (VNum average_loss) step_count.

(** What reaches the writer while the agent's counter stands still: calls
    of the step hook and log records. *)
Inductive event :=
| Hook (average_q average_loss : pynum) (step : Z)
| Log (message : string).

Section Process.

Variables np_mean np_median np_var : list float -> float.

Definition handle (ev : event) : M store unit :=
  match ev with
  | Hook q l step => call q l step
  | Log message => emit np_mean np_median np_var message
  end.

Fixpoint process (evs : list event) : M store unit :=
  match evs with
  | [] => ret tt
  | ev :: rest => run handle ev; process rest
  end.

End Process.

End StepHook.

(** ** The text of a log record *)
Module Text.

(** [str(z)] for an [int]: the decimal digits, with a minus sign for a
    negative number. *)
Definition str_int (z : Z) : string :=
  match z with
  | Z0 => "0"
  | Zpos p => DecimalString.NilEmpty.string_of_uint (Pos.to_uint p)
  | Zneg p => String "-" (DecimalString.NilEmpty.string_of_uint (Pos.to_uint p))
  end.

(** [fmt % args] for a format whose only directives are [%s], on the
    texts [str(arg)] of the arguments; [None] stands for the TypeError of
    a wrong number of arguments and for the directives left out. *)
Fixpoint format_s (fmt : string) (texts : list string) : option string :=
  match fmt with
  | EmptyString =>
      match texts with
      | [] => Some EmptyString
      | _ => None
      end
  | String c rest =>
      if Ascii.eqb c "%" then
        match rest with
        | String d rest' =>
            if Ascii.eqb d "s" then
              match texts with
              | t :: ts => option_map (String.append t) (format_s rest' ts)
              | [] => None
              end
            else None
        | EmptyString => None
        end
      else option_map (String c) (format_s rest texts)
  end.

(** No character of [s] is a space. *)
Fixpoint space_free (s : string) : bool :=
  match s with
  | String c s' => Re.non_space c && space_free s'
  | EmptyString => true
  end.

(** The text a pattern stands for once its groups are given: the literals
    and the groups in turn. *)
Fixpoint render (ps : list Re.piece) (gs : list string) : string :=
  match ps with
  | [] => EmptyString
  | Re.Lit l :: ps' => String.append l (render ps' gs)
  | Re.Group :: ps' =>
      match gs with
      | g :: gs' => String.append g (render ps' gs')
      | [] => render ps' []
      end
  end.

End Text.

(** ** The image paths of [main] *)
Module Paths.

(** [s.lstrip(c)] and [s.rstrip(c)] for one character [c]. *)
Fixpoint lstrip_char (c : ascii) (s : string) : string :=
  match s with
  | String a s' => if Ascii.eqb a c then lstrip_char c s' else s
  | EmptyString => s
  end.

Fixpoint rstrip_char (c : ascii) (s : string) : string :=
  match s with
  | String a s' =>
      match rstrip_char c s' with
      | EmptyString => if Ascii.eqb a c then EmptyString else String a EmptyString
      | r => String a r
      end
  | EmptyString => EmptyString
  end.

(** [s.strip(c)] *)
Definition strip_char (c : ascii) (s : string) : string :=
  rstrip_char c (lstrip_char c s).

(** [p[:p.rfind('/') + 1]]: the text up to and including the last slash,
    empty when there is none. *)
Fixpoint dir_head (p : string) : string :=
  match p with
  | String a p' =>
      match dir_head p' with
      | EmptyString => if Ascii.eqb a "/" then String a EmptyString else EmptyString
      | h => String a h
      end
  | EmptyString => EmptyString
  end.

(** Every character of [s] is [c]. *)
Fixpoint only (c : ascii) (s : string) : bool :=
  match s with
  | String a s' => Ascii.eqb a c && only c s'
  | EmptyString => true
  end.



(** [n] copies of [c]. *)
Fixpoint pad (c : ascii) (n : nat) : string :=
  match n with
  | O => EmptyString
  | S n' => String c (pad c n')
  end.

(** [os.path.dirname] with [/] as the separator: the head up to the last
    slash, without its trailing slashes unless it is made of slashes
    only. *)
Definition dirname (p : string) : string :=
  let head := dir_head p in
  if negb (String.eqb head EmptyString) && negb (only "/" head)
  then rstrip_char "/" head
  else head.

(** What [np.loadtxt(path, dtype=str)] returns for a list file whose lines
    hold one word each, [words] from top to bottom: the column is squeezed,
    so a file of one line gives an array of no dimension holding its word,
    and any other number of lines, none included, a one-dimensional
    array. *)
Inductive ndarray :=
| ZeroDim (x : string)
| OneDim (xs : list string).

Definition loadtxt (words : list string) : ndarray :=
  match words with
  | [x] => ZeroDim x
  | _ => OneDim words
  end.

(** The list that line 31 builds, or the [TypeError] it raises. *)
Inductive paths :=
| Resolved (l : list string)
| TypeError.

(** The comprehension of line 31 over the array: an array of no dimension
    cannot be iterated. *)
Definition comprehension (images_base_path : string) (relative_paths : ndarray) : paths :=
  match relative_paths with
  | ZeroDim _ => TypeError
  | OneDim xs => Resolved (map (fun i => String.append images_base_path (strip_char "." i)) xs)
  end.

(** Lines 29-31 on a list file at [imagefile_path] whose lines hold
    [words]. *)
Definition absolute_paths (imagefile_path : string) (words : list string) : paths :=
  let relative_paths := loadtxt words in
  let images_base_path := dirname imagefile_path in
  comprehension images_base_path relative_paths.

End Paths.

(** ** Counting flushes *)

(** The number of indices of a sequence that equal [eval_run_count - 1]. *)
Fixpoint flush_count (eval_run_count : Z) (indices : list Z) : nat :=
  match indices with
  | [] => O
  | i :: rest =>
      if i =? eval_run_count - 1
      then S (flush_count eval_run_count rest)
      else flush_count eval_run_count rest
  end.

(** [evaluated e H]: the equation [H] between the closed term [e] and its
    value. *)
Ltac evaluated e H :=
  let v := eval vm_compute in e in
  assert (H : e = v) by (vm_compute; reflexivity).

(** Prove that a given message is an episode line by evaluating the
    search and the conversions. *)
Ltac show_reward_line :=
  lazymatch goal with
  | |- Handler.reward_line ?m ?i =>
      let gs := eval vm_compute in (Re.search Re.reward_re m) in
      lazymatch gs with
      | Some ?g =>
          let r := eval vm_compute in (Handler.episode_fields g) in
          lazymatch r with
          | Ok ?rr =>
              let lf := eval vm_compute in (int_to_double (Handler.episode_length rr)) in
              lazymatch lf with
              | Ok ?l => exists g, rr, l; repeat split; vm_compute; reflexivity
              end
          end
      end
  end.

Ltac show_episode_line :=
  split; [vm_compute; reflexivity | show_reward_line].

Ltac show_well_formed :=
  repeat split; first [reflexivity | vm_compute; discriminate].

(** Evaluate the left-hand side of an equation [H] and leave the other
    side as it is. *)
Ltac evaluate_left H :=
  match type of H with
  | ?l = _ => let v := eval vm_compute in l in change l with v in H
  end.

(** * The model on small inputs *)

Example float_of_string_examples :
  float_of_string "0.1" = Ok (S754_finite false 7205759403792794 (-56)) /\
  float_of_string "1e23" = Ok (S754_finite false 5960464477539062 24) /\
  float_of_string "5e-324" = Ok (S754_finite false 1 (-1074)) /\
  float_of_string " -1_0.5E+1 " = Ok (S754_finite true 7388718138654720 (-46)) /\
  float_of_string "1e400" = Ok (S754_infinity false) /\
  float_of_string "-0.0" = Ok (S754_zero true) /\
  float_of_string "nan" = Ok S754_nan /\
  float_of_string "1__0" = Err ValueError /\
  float_of_string "." = Err ValueError /\
  float_of_string "" = Err ValueError.
Proof. repeat split; vm_compute; reflexivity. Qed.

Example builtin_int_examples :
  builtin_int "3" = Ok 3 /\
  builtin_int " -1_2 " = Ok (-12) /\
  builtin_int "007" = Ok 7 /\
  builtin_int "4.5" = Err ValueError /\
  builtin_int "" = Err ValueError.
Proof. repeat split; vm_compute; reflexivity. Qed.

(** The text is stripped of tab, line feed, vertical tab, form feed,
    carriage return and space before it is read, and of nothing else: the
    separators 28 to 31 around a number make the conversion fail. *)
Example stripped_whitespace_examples :
  builtin_int (String (ascii_of_nat 11) "2") = Ok 2 /\
  builtin_int (String (ascii_of_nat 9) (String (ascii_of_nat 12) "2")) = Ok 2 /\
  builtin_int (String (ascii_of_nat 28) "2") = Err ValueError /\
  builtin_int (String (ascii_of_nat 31) "2") = Err ValueError /\
  float_of_string (String (ascii_of_nat 13) "1.5") = Ok (S754_finite false 6755399441055744 (-52)) /\
  float_of_string (String (ascii_of_nat 28) "1.5") = Err ValueError /\
  float_of_string (String (ascii_of_nat 31) "1.5") = Err ValueError /\
  map is_space (map ascii_of_nat [8; 9; 10; 11; 12; 13; 14; 27; 28; 29; 30; 31; 32; 33]%nat)
  = [false; true; true; true; true; true; false; false; false; false; false; false; true; false].
Proof. repeat split; vm_compute; reflexivity. Qed.

Example int_to_double_examples :
  int_to_double 12 = Ok (S754_finite false 6755399441055744 (-49)) /\
  int_to_double 9007199254740993 = Ok (S754_finite false 4503599627370496 1) /\
  int_to_double (10 ^ 400) = Err OverflowError.
Proof. repeat split; vm_compute; reflexivity. Qed.

(** The search is leftmost, a group stops at the first space, and an empty
    group is a match. *)
Example search_examples :
  Re.search Re.reward_re
    "x evaluation episode evaluation episode 3 length:12 R:4.5 IoU:0.82 Max_IoU:0.91 tail"
    = Some ["3"; "12"; "4.5"; "0.82"; "0.91"]%string /\
  Re.search Re.new_best_re "The best score is updated  -> " = Some [""; ""]%string /\
  Re.search Re.new_best_re "The best score is updated 10.0 ->12.5" = None /\
  Re.search Re.reward_re "evaluation episode 0 length:1 R:2.0" = None.
Proof. repeat split; vm_compute; reflexivity. Qed.

Example np_index_examples :
  Handler.np_index 10 9 = Ok 9%nat /\
  Handler.np_index 10 (-1) = Ok 9%nat /\
  Handler.np_index 10 10 = Err IndexError /\
  Handler.np_index 10 (-11) = Err IndexError.
Proof. repeat split; reflexivity. Qed.

(** * Properties of the handler *)

Section HandlerFacts.

Import Handler.

Variables np_mean np_median np_var : list float -> float.

Local Abbreviation emit := (Handler.emit np_mean np_median np_var).
Local Abbreviation emit_reward := (Handler.emit_reward np_mean np_median np_var).
Local Abbreviation emit_all := (Handler.emit_all np_mean np_median np_var).
Local Abbreviation flush := (Handler.flush np_mean np_median np_var).
Local Abbreviation aggregates := (Handler.aggregates np_mean np_median np_var).

Lemma np_empty_length n junk arr :
  np_empty n junk = Ok arr -> 0 <= n /\ length arr = Z.to_nat n.
Proof.
  unfold np_empty. destruct (Z.ltb_spec n 0); [discriminate|].
  intros [= <-]. now rewrite length_map, length_seq.
Qed.

(** [__init__] leaves the four buffers with [eval_run_count] slots. *)
Lemma init_well_formed n j1 j2 j3 j4 h :
  init n j1 j2 j3 j4 = Ok h -> well_formed h /\ eval_run_count h = n.
Proof.
  unfold init.
  destruct (np_empty n j1) as [a1|] eqn:H1; [|discriminate].
  destruct (np_empty n j2) as [a2|] eqn:H2; [|discriminate].
  destruct (np_empty n j3) as [a3|] eqn:H3; [|discriminate].
  destruct (np_empty n j4) as [a4|] eqn:H4; [|discriminate].
  simpl. intros [= <-].
  apply np_empty_length in H1, H2, H3, H4.
  unfold well_formed. simpl. intuition.
Qed.

Lemma emit_new_best_unmatched message st :
  Re.search Re.new_best_re message = None ->
  emit_new_best message st = Finished tt st.
Proof. intros Hnb. unfold emit_new_best. now rewrite Hnb. Qed.

Lemma emit_reward_unmatched message st :
  Re.search Re.reward_re message = None ->
  emit_reward message st = Finished tt st.
Proof. intros Hrw. unfold Handler.emit_reward. now rewrite Hrw. Qed.

Lemma flush_spec step_count st :
  flush step_count st =
  Finished tt (mkStore (self st) (agent_t st) (summary_writer st ++ aggregates (self st) step_count)).
Proof.
  destruct st as [h t w].
  unfold Handler.flush, Handler.aggregates, bind, gets, add_scalar, modify; simpl.
  now rewrite <- !app_assoc.
Qed.

Lemma np_index_in_range n i :
  0 <= i < Z.of_nat n -> np_index n i = Ok (Z.to_nat i).
Proof.
  intros Hi. unfold np_index.
  replace (0 <=? i) with true by (symmetry; apply Z.leb_le; lia).
  replace (i <? Z.of_nat n) with true by (symmetry; apply Z.ltb_lt; lia).
  reflexivity.
Qed.

Lemma assign_in_range field set i v f st :
  0 <= i < Z.of_nat (length (field (self st))) ->
  builtin_float v = Ok f ->
  assign field set i v st =
  Finished tt (mkStore (set (<[Z.to_nat i := f]> (field (self st))) (self st))
                       (agent_t st) (summary_writer st)).
Proof.
  intros Hi Hf.
  unfold assign, bind, gets, lift, np_setitem, update_self, modify.
  now rewrite (np_index_in_range _ _ Hi), Hf.
Qed.

Lemma emit_reward_line message i st :
  well_formed (self st) ->
  reward_line message i ->
  0 <= i < eval_run_count (self st) ->
  exists st',
    emit_reward message st = Finished tt st' /\
    well_formed (self st') /\
    eval_run_count (self st') = eval_run_count (self st) /\
    agent_t st' = agent_t st /\
    summary_writer st' =
      summary_writer st ++
      (if i =? eval_run_count (self st) - 1 then aggregates (self st') (agent_t st) else []).
Proof.
  intros Hwf (gs & r & lf & Hrw & Hfields & Hnum & Hlen) Hi.
  destruct st as [[n rs ls us ms] t w].
  destruct Hwf as (Hn & Hrs & Hls & Hus & Hms); simpl in *.
  unfold Handler.emit_reward. rewrite Hrw.
  unfold bind at 1, lift at 1. rewrite Hfields, Hnum.
  unfold bind at 1.
  rewrite (assign_in_range _ _ _ _ lf) by (simpl; auto; lia). simpl.
  unfold bind at 1.
  rewrite (assign_in_range _ _ _ _ (episode_reward r)) by (simpl; auto; lia). simpl.
  unfold bind at 1.
  rewrite (assign_in_range _ _ _ _ (episode_iou r)) by (simpl; auto; lia). simpl.
  unfold bind at 1.
  rewrite (assign_in_range _ _ _ _ (episode_max_iou r)) by (simpl; auto; lia). simpl.
  unfold bind at 1, gets at 1. simpl.
  destruct (i =? n - 1).
  - unfold bind, gets. rewrite flush_spec. simpl.
    eexists; split; [reflexivity|].
    unfold well_formed; simpl. rewrite !length_insert. auto 10.
  - eexists; split; [reflexivity|].
    unfold well_formed; simpl. rewrite !length_insert, app_nil_r. auto 10.
Qed.

Lemma emit_episode_line message i st :
  well_formed (self st) ->
  episode_line message i ->
  0 <= i < eval_run_count (self st) ->
  exists st',
    emit message st = Finished tt st' /\
    well_formed (self st') /\
    eval_run_count (self st') = eval_run_count (self st) /\
    agent_t st' = agent_t st /\
    summary_writer st' =
      summary_writer st ++
      (if i =? eval_run_count (self st) - 1 then aggregates (self st') (agent_t st) else []).
Proof.
  intros Hwf [Hnb Hline] Hi.
  unfold Handler.emit, bind. rewrite (emit_new_best_unmatched _ _ Hnb).
  now apply emit_reward_line.
Qed.

Lemma emit_all_app l1 l2 st :
  emit_all (l1 ++ l2) st =
  match emit_all l1 st with
  | Finished _ st1 => emit_all l2 st1
  | Raised e st1 => Raised e st1
  | OutOfFuel => OutOfFuel
  end.
Proof.
  revert st. induction l1 as [|m l1 IH]; intros st; simpl.
  - reflexivity.
  - unfold bind. destruct (emit m st) as [[] st1|e st1|]; auto.
Qed.

(** Episode lines whose index is below the last one leave the writer
    alone, in whatever order they come. *)
Lemma emit_all_quiet messages st :
  well_formed (self st) ->
  Forall (fun m => exists i, episode_line m i /\ 0 <= i < eval_run_count (self st) - 1) messages ->
  exists st',
    emit_all messages st = Finished tt st' /\
    well_formed (self st') /\
    eval_run_count (self st') = eval_run_count (self st) /\
    agent_t st' = agent_t st /\
    summary_writer st' = summary_writer st.
Proof.
  revert st. induction messages as [|m rest IH]; intros st Hwf Hall.
  - exists st. simpl. unfold ret. auto.
  - inversion Hall as [|? ? (i & Hline & Hi) Hrest]; subst.
    destruct (emit_episode_line m i st Hwf Hline) as (st1 & He & Hwf1 & Hn1 & Ht1 & Hw1); [lia|].
    replace (i =? eval_run_count (self st) - 1) with false in Hw1
      by (symmetry; apply Z.eqb_neq; lia).
    rewrite app_nil_r in Hw1.
    destruct (IH st1 Hwf1) as (st2 & He2 & Hwf2 & Hn2 & Ht2 & Hw2).
    { rewrite Hn1. exact Hrest. }
    exists st2. simpl. unfold bind. rewrite He, He2.
    split; [reflexivity|]. split; [exact Hwf2|].
    split; [congruence|]. split; congruence.
Qed.

(** X1.  When the handler is built for rounds of [eval_run_count] episodes, a
    round flushes once: the lines before the one with the last index emit
    nothing, that line appends the seven aggregates, and the lines after
    it emit nothing, whatever the order of the other indices. *)
Lemma round_flushes_once before last after st :
  well_formed (self st) ->
  Forall (fun m => exists i, episode_line m i /\ 0 <= i < eval_run_count (self st) - 1)
         (before ++ after) ->
  episode_line last (eval_run_count (self st) - 1) ->
  1 <= eval_run_count (self st) ->
  exists st1 st2 st3,
    emit_all before st = Finished tt st1 /\
    summary_writer st1 = summary_writer st /\
    emit last st1 = Finished tt st2 /\
    summary_writer st2 = summary_writer st ++ aggregates (self st2) (agent_t st) /\
    emit_all after st2 = Finished tt st3 /\
    summary_writer st3 = summary_writer st2 /\
    emit_all (before ++ last :: after) st = Finished tt st3.
Proof.
  intros Hwf Hall Hlast Hk.
  apply Forall_app in Hall. destruct Hall as [Hb Ha].
  destruct (emit_all_quiet before st Hwf Hb) as (st1 & He1 & Hwf1 & Hn1 & Ht1 & Hw1).
  rewrite <- Hn1 in Hlast.
  destruct (emit_episode_line last _ st1 Hwf1 Hlast) as (st2 & He2 & Hwf2 & Hn2 & Ht2 & Hw2); [lia|].
  rewrite Z.eqb_refl in Hw2.
  destruct (emit_all_quiet after st2 Hwf2) as (st3 & He3 & Hwf3 & Hn3 & Ht3 & Hw3).
  { rewrite Hn2, Hn1. exact Ha. }
  exists st1, st2, st3.
  split; [exact He1|]. split; [exact Hw1|]. split; [exact He2|].
  split; [congruence|]. split; [exact He3|]. split; [exact Hw3|].
  rewrite emit_all_app, He1. simpl. unfold bind. now rewrite He2.
Qed.

(** C1.  At lines 70 and 80 [main] sizes the handler with the constant 10
    and not with the configured number of evaluation episodes.  With five
    episodes configured the four buffers still have ten slots, and the log
    lines of a round of five episodes, indices 0 to 4, are stored without
    any scalar being written, where the claim expects one burst of seven:
    the flush waits for index 9. *)
Theorem main_handler_round_of_five_emits_nothing (j1 j2 j3 j4 : nat -> float) (t : Z) :
  exists h st',
    main_handler 5 j1 j2 j3 j4 = Ok h /\
    eval_run_count h = 10 /\
    length (episode_rewards h) = 10%nat /\
    length (episode_lengths h) = 10%nat /\
    length (episode_ious h) = 10%nat /\
    length (episode_max_ious h) = 10%nat /\
    emit_all round_of_five (mkStore h t []) = Finished tt st' /\
    summary_writer st' = [].
Proof.
  set (out := emit_all round_of_five).
  eexists. eexists.
  split; [reflexivity|].
  do 5 (split; [reflexivity|]).
  subst out.
  match goal with
  | |- ?lhs = _ /\ _ => let v := eval vm_compute in lhs in change lhs with v
  end.
  split; reflexivity.
Qed.

(** C5.  A message matched by neither pattern: [emit] finishes without
    raising, and the store it returns is the one it was given, so no scalar
    was written and the four buffers are untouched. *)
Theorem emit_unmatched_is_silent message st :
  Re.search Re.new_best_re message = None ->
  Re.search Re.reward_re message = None ->
  emit message st = Finished tt st.
Proof.
  intros Hnb Hrw. unfold Handler.emit, bind.
  rewrite (emit_new_best_unmatched _ _ Hnb).
  now apply emit_reward_unmatched.
Qed.

(** C2.  On the episode line of the claim only the second pattern matches;
    its five groups convert to the index 3 and the length 12 as integers and
    to the doubles nearest 4.5, 0.82 and 0.91.  [emit] on that line, with
    buffers of more than three slots, writes the doubles 12.0, 4.5, 0.82 and
    0.91 into slot 3 of the length, reward, IoU and maximal-IoU buffers,
    leaves every other slot, the run count and the agent's step as they
    were, and writes to the summary writer only the seven aggregates, and
    only when 3 is the last index of the round; with three slots or fewer
    it raises [IndexError] before storing anything.  On a message that
    neither pattern matches, neither block of [emit] does anything, and
    [emit] returns the store it was given. *)
Theorem episode_line_fields :
  let line := "evaluation episode 3 length:12 R:4.5 IoU:0.82 Max_IoU:0.91"%string in
  let reward := S754_finite false 5066549580791808 (-50) in
  let iou := S754_finite false 7385903388887613 (-53) in
  let max_iou := S754_finite false 8196551321814303 (-53) in
  let twelve := S754_finite false 6755399441055744 (-49) in
  Re.search Re.new_best_re line = None /\
  Re.search Re.reward_re line = Some ["3"; "12"; "4.5"; "0.82"; "0.91"]%string /\
  episode_fields ["3"; "12"; "4.5"; "0.82"; "0.91"]%string
    = Ok (mkEpisodeResult 3 12 reward iou max_iou) /\
  within_half_ulp reward 45 10 /\
  within_half_ulp iou 82 100 /\
  within_half_ulp max_iou 91 100 /\
  (forall message st,
     Re.search Re.new_best_re message = None ->
     Re.search Re.reward_re message = None ->
     emit_new_best message st = Finished tt st /\
     emit_reward message st = Finished tt st) /\
  builtin_float (PyInt 12) = Ok twelve /\
  within_half_ulp twelve 12 1 /\
  (forall st,
     well_formed (self st) ->
     3 < eval_run_count (self st) ->
     let h' := mkHandler (eval_run_count (self st))
                 (<[3%nat := reward]> (episode_rewards (self st)))
                 (<[3%nat := twelve]> (episode_lengths (self st)))
                 (<[3%nat := iou]> (episode_ious (self st)))
                 (<[3%nat := max_iou]> (episode_max_ious (self st))) in
     emit line st =
       Finished tt
         (mkStore h' (agent_t st)
            (summary_writer st ++
             (if 3 =? eval_run_count (self st) - 1
              then aggregates h' (agent_t st) else []))) /\
     episode_lengths h' !! 3%nat = Some twelve /\
     episode_rewards h' !! 3%nat = Some reward /\
     episode_ious h' !! 3%nat = Some iou /\
     episode_max_ious h' !! 3%nat = Some max_iou) /\
  (forall st,
     well_formed (self st) ->
     eval_run_count (self st) <= 3 ->
     emit line st = Raised IndexError st) /\
  (forall message st,
     Re.search Re.new_best_re message = None ->
     Re.search Re.reward_re message = None ->
     emit message st = Finished tt st).
Proof.
  cbv zeta.
  split; [vm_compute; reflexivity|].
  split; [vm_compute; reflexivity|].
  split; [vm_compute; reflexivity|].
  split; [vm_compute; intuition discriminate|].
  split; [vm_compute; intuition discriminate|].
  split; [vm_compute; intuition discriminate|].
  split.
  { intros message st Hnb Hrw. split.
    - now apply emit_new_best_unmatched.
    - now apply emit_reward_unmatched. }
  split; [vm_compute; reflexivity|].
  split; [vm_compute; intuition discriminate|].
  assert (Hnb : Re.search Re.new_best_re
                  "evaluation episode 3 length:12 R:4.5 IoU:0.82 Max_IoU:0.91" = None)
    by (vm_compute; reflexivity).
  assert (Hrw : Re.search Re.reward_re
                  "evaluation episode 3 length:12 R:4.5 IoU:0.82 Max_IoU:0.91"
                = Some ["3"; "12"; "4.5"; "0.82"; "0.91"]%string)
    by (vm_compute; reflexivity).
  assert (Hfields : episode_fields ["3"; "12"; "4.5"; "0.82"; "0.91"]%string
                    = Ok (mkEpisodeResult 3 12
                            (S754_finite false 5066549580791808 (-50))
                            (S754_finite false 7385903388887613 (-53))
                            (S754_finite false 8196551321814303 (-53))))
    by (vm_compute; reflexivity).
  assert (Htwelve : builtin_float (PyInt 12) = Ok (S754_finite false 6755399441055744 (-49)))
    by (vm_compute; reflexivity).
  split; [|split].
  - intros st Hwf Hi.
    destruct st as [[n rs ls us ms] t w].
    destruct Hwf as (Hn & Hrs & Hls & Hus & Hms).
    cbn [self eval_run_count episode_rewards episode_lengths episode_ious
         episode_max_ious agent_t summary_writer] in *.
    split.
    + unfold Handler.emit, bind at 1.
      rewrite (emit_new_best_unmatched _ _ Hnb).
      unfold Handler.emit_reward. rewrite Hrw.
      unfold bind at 1, lift at 1. rewrite Hfields.
      cbn [episode_number episode_length episode_reward episode_iou episode_max_iou].
      unfold bind at 1.
      rewrite (assign_in_range _ _ _ _ (S754_finite false 6755399441055744 (-49)))
        by first [exact Htwelve | simpl; lia]. simpl.
      unfold bind at 1.
      rewrite (assign_in_range _ _ _ _ (S754_finite false 5066549580791808 (-50)))
        by (simpl; auto; lia). simpl.
      unfold bind at 1.
      rewrite (assign_in_range _ _ _ _ (S754_finite false 7385903388887613 (-53)))
        by (simpl; auto; lia). simpl.
      unfold bind at 1.
      rewrite (assign_in_range _ _ _ _ (S754_finite false 8196551321814303 (-53)))
        by (simpl; auto; lia). simpl.
      unfold bind at 1, gets at 1. simpl.
      change (match n - 1 with Z.pos q => (3 =? q)%positive | _ => false end)
        with (3 =? n - 1).
      destruct (3 =? n - 1).
      * unfold bind, gets. rewrite flush_spec. reflexivity.
      * now rewrite app_nil_r.
    + repeat split; apply list_lookup_insert_eq;
        cbn [self episode_rewards episode_lengths episode_ious episode_max_ious];
        unfold float in *; lia.
  - intros st Hwf Hi.
    destruct st as [[n rs ls us ms] t w].
    destruct Hwf as (Hn & Hrs & Hls & Hus & Hms).
    cbn [self eval_run_count episode_rewards episode_lengths episode_ious
         episode_max_ious agent_t summary_writer] in *.
    unfold Handler.emit, bind at 1.
    rewrite (emit_new_best_unmatched _ _ Hnb).
    unfold Handler.emit_reward. rewrite Hrw.
    unfold bind at 1, lift at 1. rewrite Hfields.
    cbn [episode_number episode_length episode_reward episode_iou episode_max_iou].
    unfold bind at 1, assign, bind at 1, gets at 1.
    cbn [self episode_lengths].
    unfold bind at 1, lift at 1, np_setitem, np_index.
    replace (3 <? Z.of_nat (length ls)) with false by (symmetry; apply Z.ltb_ge; lia).
    replace (3 <? 0) with false by reflexivity.
    rewrite !andb_false_r. reflexivity.
  - intros message st Hnb' Hrw'. unfold Handler.emit, bind.
    rewrite (emit_new_best_unmatched _ _ Hnb').
    now apply emit_reward_unmatched.
Qed.

(** C4.  On the line of the claim the first pattern captures the texts 10.0
    and 12.5, and [emit] writes one scalar named evaluation_new_best_score
    at the agent's current step.  Its value is the captured text itself:
    line 138 passes [group(2)] on without the [float(...)] that lines
    146-148 apply to the fields of an episode line, so the writer does not
    receive a plain float. *)
Theorem new_best_scalar_is_text st :
  let line := "The best score is updated 10.0 -> 12.5"%string in
  Re.search Re.new_best_re line = Some ["10.0"; "12.5"]%string /\
  emit line st =
    Finished tt (mkStore (self st) (agent_t st)
      (summary_writer st ++ [mkScalar "evaluation_new_best_score" (VStr "12.5") (agent_t st)])) /\
  is_plain_float (VStr "12.5") = false /\
  float_of_string "12.5" = Ok (S754_finite false 7036874417766400 (-49)).
Proof.
  cbv zeta. destruct st as [h t w].
  split; [vm_compute; reflexivity|].
  split; [|split; vm_compute; reflexivity].
  unfold Handler.emit, bind, emit_new_best, Handler.emit_reward.
  replace (Re.search Re.new_best_re _) with (Some ["10.0"; "12.5"]%string)
    by (vm_compute; reflexivity).
  replace (Re.search Re.reward_re _) with (@None (list string))
    by (vm_compute; reflexivity).
  reflexivity.
Qed.

(** C9.  When the line that completes a round is processed (its index is
    [eval_run_count - 1]), [emit] appends exactly the seven aggregate
    scalars, after the new-best scalar if the first pattern matched as well,
    and every one of them carries the step counter [t] that the agent had
    when [emit] was called; [emit] does not change that counter. *)
Theorem aggregates_share_agent_step message st :
  well_formed (self st) ->
  1 <= eval_run_count (self st) ->
  reward_line message (eval_run_count (self st) - 1) ->
  exists st' new_best agg,
    emit message st = Finished tt st' /\
    summary_writer st' = summary_writer st ++ new_best ++ agg /\
    Forall (fun s => tag s = "evaluation_new_best_score"%string) new_best /\
    map tag agg = aggregate_tags /\
    Forall (fun s => global_step s = agent_t st) agg /\
    agent_t st' = agent_t st.
Proof.
  intros Hwf Hk Hline.
  unfold Handler.emit, bind.
  assert (Hnb : exists nb,
    emit_new_best message st
      = Finished tt (mkStore (self st) (agent_t st) (summary_writer st ++ nb)) /\
    Forall (fun s => tag s = "evaluation_new_best_score"%string) nb).
  { unfold emit_new_best.
    destruct (Re.search Re.new_best_re message) as [gs|].
    - eexists. split; [reflexivity|]. repeat constructor.
    - exists []. rewrite app_nil_r. destruct st; split; [reflexivity|constructor]. }
  destruct Hnb as (nb & -> & Hnb).
  destruct (emit_reward_line message (eval_run_count (self st) - 1)
              (mkStore (self st) (agent_t st) (summary_writer st ++ nb)))
    as (st' & He & _ & _ & Ht & Hw); simpl; auto; [lia|].
  simpl in *. rewrite Z.eqb_refl in Hw.
  exists st', nb, (aggregates (self st') (agent_t st)).
  rewrite He, Hw, <- app_assoc.
  repeat split; auto.
  unfold Handler.aggregates. repeat constructor.
Qed.

End HandlerFacts.

(** * Properties of the evaluation runner *)

Lemma int_to_double_error z e : int_to_double z = Err e -> e = OverflowError.
Proof. unfold int_to_double. destruct (float_of_Z z); congruence. Qed.

Lemma builtin_float_error x e : builtin_float x = Err e -> e = OverflowError.
Proof. destruct x; simpl; [apply int_to_double_error|discriminate..]. Qed.

Lemma py_add_error a b e : py_add a b = Err e -> e = OverflowError.
Proof.
  destruct a, b; simpl; try discriminate;
    match goal with
    | |- rbind (int_to_double ?z) _ = _ -> _ =>
        destruct (int_to_double z) eqn:Hz; simpl;
        [discriminate | intros [= <-]; eapply int_to_double_error; eassumption]
    end.
Qed.

(** Adding a reward to the initial return 0 gives the reward back, except
    for a negative zero, which becomes a positive one. *)
Lemma py_add_zero_left R :
  R <> PyFloat (S754_zero true) -> R <> NpFloat (S754_zero true) ->
  py_add (PyInt 0) R = Ok R.
Proof.
  intros H1 H2. destruct R as [z|f|f]; simpl.
  - reflexivity.
  - destruct f as [[|]| | |]; try reflexivity. congruence.
  - destruct f as [[|]| | |]; try reflexivity. congruence.
Qed.

Section EvaluatorFacts.

Import Evaluator.

Context {E A Obs Act : Type} {environment : Environment E Obs Act} {agent_ops : Agent A Obs Act}.

Lemma while_loop_eq fuel cap (obs : Obs) done test_r t :
  while_loop fuel cap obs done test_r t =
  if done || at_cap t cap then ret (done, test_r, t)
  else
    match fuel with
    | O => fun _ => OutOfFuel
    | S fuel' =>
        do a <- agent_act obs;
        do r <- env_step a;
        do test_r' <- lift (py_add test_r (snd (fst r)));
        while_loop fuel' cap (fst (fst r)) (snd r) test_r' (t + 1)
    end.
Proof. destruct fuel; reflexivity. Qed.

(** One iteration of the loop body, when the addition succeeds. *)
Lemma loop_body fuel cap (obs : Obs) test_r t w :
  at_cap t cap = false ->
  while_loop (S fuel) cap obs false test_r t w =
  let '(a, action) := act (agent w) obs in
  let '(e, r) := step (env w) action in
  match py_add test_r (snd (fst r)) with
  | Ok test_r' =>
      while_loop fuel cap (fst (fst r)) (snd r) test_r' (t + 1)
        (mkWorld e a (calls w ++ [AgentAct; EnvStep]))
  | Err x => Raised x (mkWorld e a (calls w ++ [AgentAct; EnvStep]))
  end.
Proof.
  intros Hcap. rewrite while_loop_eq. simpl. rewrite Hcap.
  unfold bind, agent_act, env_step, lift.
  destruct (act (agent w) obs) as [a action]. simpl.
  destruct (step (env w) action) as [e r]. simpl.
  rewrite <- app_assoc. simpl.
  destruct (py_add test_r (snd (fst r))); reflexivity.
Qed.

(** A finished loop took [k] steps, each an [act] followed by a [step],
    counted by [t], and stopped on [done] or at the cap. *)
Lemma while_loop_finished fuel cap :
  forall (obs : Obs) done test_r t w done' test_r' t' w',
    while_loop fuel cap obs done test_r t w = Finished (done', test_r', t') w' ->
    exists k : nat,
      t' = t + Z.of_nat k /\
      calls w' = calls w ++ steps_calls k /\
      done' || at_cap t' cap = true /\
      (k <= fuel)%nat.
Proof.
  induction fuel as [|fuel IH]; intros obs done test_r t w done' test_r' t' w' Hrun.
  - rewrite while_loop_eq in Hrun.
    destruct (done || at_cap t cap) eqn:Hstop; [|discriminate].
    injection Hrun as <- <- <- <-. exists O. simpl.
    rewrite Z.add_0_r, app_nil_r. auto.
  - destruct (done || at_cap t cap) eqn:Hstop.
    + rewrite while_loop_eq, Hstop in Hrun.
      injection Hrun as <- <- <- <-. exists O. simpl.
      rewrite Z.add_0_r, app_nil_r. repeat split; auto. lia.
    + apply orb_false_iff in Hstop. destruct Hstop as [-> Hcap].
      rewrite (loop_body _ _ _ _ _ _ Hcap) in Hrun.
      destruct (act (agent w) obs) as [a action].
      destruct (step (env w) action) as [e r].
      destruct (py_add test_r (snd (fst r))) as [x|x]; [|discriminate].
      apply IH in Hrun. destruct Hrun as (k & Ht & Hc & Hs & Hk). simpl in Hc.
      exists (S k). rewrite Hc, <- app_assoc. simpl.
      repeat split; auto; lia.
Qed.

(** A finished loop stopped at the first [done]: when it made no iteration
    [done] is the one it was entered with, and when it made some it was
    entered with [done] false, every step before the last reported [done]
    false, and the last step reported the [done] it returns. *)
Lemma while_loop_dones fuel cap :
  forall (obs : Obs) done test_r t w done' test_r' t' w',
    while_loop fuel cap obs done test_r t w = Finished (done', test_r', t') w' ->
    exists k : nat,
      t' = t + Z.of_nat k /\
      match k with
      | O => done' = done
      | S j =>
          done = false /\
          dones (S j) obs (env w) (agent w) = repeat false j ++ [done']
      end.
Proof.
  induction fuel as [|fuel IH]; intros obs done test_r t w done' test_r' t' w' Hrun.
  - rewrite while_loop_eq in Hrun.
    destruct (done || at_cap t cap) eqn:Hstop; [|discriminate].
    injection Hrun as <- <- <- <-. exists O. split; [lia|reflexivity].
  - destruct (done || at_cap t cap) eqn:Hstop.
    + rewrite while_loop_eq, Hstop in Hrun.
      injection Hrun as <- <- <- <-. exists O. split; [lia|reflexivity].
    + apply orb_false_iff in Hstop. destruct Hstop as [-> Hcap].
      rewrite (loop_body _ _ _ _ _ _ Hcap) in Hrun.
      destruct (act (agent w) obs) as [a action] eqn:Ha.
      destruct (step (env w) action) as [e r] eqn:Hs.
      destruct (py_add test_r (snd (fst r))) as [x|x]; [|discriminate].
      apply IH in Hrun. destruct Hrun as (k & Ht & Hk). cbn [env agent] in Hk.
      exists (S k). split; [lia|]. split; [reflexivity|].
      cbn [dones]. rewrite Ha, Hs.
      destruct k as [|j].
      * now rewrite Hk.
      * destruct Hk as (-> & ->). reflexivity.
Qed.

(** Below a cap the counter never passes it. *)
Lemma while_loop_within_cap fuel m :
  forall (obs : Obs) done test_r t w done' test_r' t' w',
    t <= m ->
    while_loop fuel (Some m) obs done test_r t w = Finished (done', test_r', t') w' ->
    t' <= m.
Proof.
  induction fuel as [|fuel IH]; intros obs done test_r t w done' test_r' t' w' Hle Hrun.
  - rewrite while_loop_eq in Hrun.
    destruct (done || at_cap t (Some m)); [|discriminate].
    injection Hrun as <- <- <- <-. exact Hle.
  - destruct (done || at_cap t (Some m)) eqn:Hstop.
    + rewrite while_loop_eq, Hstop in Hrun.
      injection Hrun as <- <- <- <-. exact Hle.
    + apply orb_false_iff in Hstop. destruct Hstop as [-> Hcap].
      rewrite (loop_body _ _ _ _ _ _ Hcap) in Hrun.
      destruct (act (agent w) obs) as [a action].
      destruct (step (env w) action) as [e r].
      destruct (py_add test_r (snd (fst r))) as [x|x]; [|discriminate].
      simpl in Hcap. apply Z.eqb_neq in Hcap.
      eapply IH; [|exact Hrun]. lia.
Qed.

(** With a cap [m] the loop needs at most [m - t] units of fuel. *)
Lemma while_loop_enough_fuel fuel m :
  forall (obs : Obs) done test_r t w,
    t <= m ->
    (Z.to_nat (m - t) <= fuel)%nat ->
    while_loop fuel (Some m) obs done test_r t w <> OutOfFuel.
Proof.
  induction fuel as [|fuel IH]; intros obs done test_r t w Hle Hfuel.
  - rewrite while_loop_eq.
    destruct done; simpl; [discriminate|].
    replace (t =? m) with true by (symmetry; apply Z.eqb_eq; lia). discriminate.
  - destruct (done || at_cap t (Some m)) eqn:Hstop.
    + rewrite while_loop_eq, Hstop. discriminate.
    + apply orb_false_iff in Hstop. destruct Hstop as [-> Hcap].
      rewrite (loop_body _ _ _ _ _ _ Hcap).
      destruct (act (agent w) obs) as [a action].
      destruct (step (env w) action) as [e r].
      destruct (py_add test_r (snd (fst r))) as [x|x]; [|discriminate].
      simpl in Hcap. apply Z.eqb_neq in Hcap.
      apply IH; lia.
Qed.

Lemma while_loop_raised fuel cap :
  forall (obs : Obs) done test_r t w x w',
    while_loop fuel cap obs done test_r t w = Raised x w' -> x = OverflowError.
Proof.
  induction fuel as [|fuel IH]; intros obs done test_r t w x w' Hrun.
  - rewrite while_loop_eq in Hrun.
    destruct (done || at_cap t cap); discriminate.
  - destruct (done || at_cap t cap) eqn:Hstop.
    + rewrite while_loop_eq, Hstop in Hrun. discriminate.
    + apply orb_false_iff in Hstop. destruct Hstop as [-> Hcap].
      rewrite (loop_body _ _ _ _ _ _ Hcap) in Hrun.
      destruct (act (agent w) obs) as [a action].
      destruct (step (env w) action) as [e r].
      destruct (py_add test_r (snd (fst r))) as [y|y] eqn:Hadd.
      * eapply IH; exact Hrun.
      * injection Hrun as <- _. eapply py_add_error; exact Hadd.
Qed.

(** On floats neither the addition nor the conversion raises. *)
Lemma py_add_safe r x :
  safe_return r -> is_floating x = true ->
  exists r', py_add r x = Ok r' /\ is_floating r' = true.
Proof.
  intros [-> | Hr] Hx.
  - destruct x as [z|f|f]; [discriminate|eexists; split; reflexivity..].
  - destruct r as [z|f|f]; [discriminate|..];
      (destruct x as [z|g|g]; [discriminate|eexists; split; reflexivity..]).
Qed.

Lemma builtin_float_safe r : safe_return r -> exists f, builtin_float r = Ok f.
Proof.
  intros [-> | Hr].
  - eexists. reflexivity.
  - destruct r as [z|f|f]; [discriminate|eexists; reflexivity..].
Qed.

Lemma while_loop_float fuel cap :
  float_valued environment ->
  forall (obs : Obs) done test_r t w,
    safe_return test_r ->
    match while_loop fuel cap obs done test_r t w with
    | Finished r _ => safe_return (snd (fst r))
    | Raised _ _ => False
    | OutOfFuel => True
    end.
Proof.
  intros (Hreward & _).
  induction fuel as [|fuel IH]; intros obs done test_r t w Hsafe.
  - rewrite while_loop_eq. destruct (done || at_cap t cap); simpl; auto.
  - destruct (done || at_cap t cap) eqn:Hstop.
    + rewrite while_loop_eq, Hstop. simpl. exact Hsafe.
    + apply orb_false_iff in Hstop. destruct Hstop as [-> Hcap].
      rewrite (loop_body _ _ _ _ _ _ Hcap).
      destruct (act (agent w) obs) as [a action].
      specialize (Hreward (env w) action).
      destruct (step (env w) action) as [e r]. simpl in Hreward.
      destruct (py_add_safe _ _ Hsafe Hreward) as (r' & -> & Hr').
      apply IH. now right.
Qed.

(** The body of the [for] loop, case by case. *)
Lemma episode_eq fuel cap i scores w :
  episode fuel cap i scores w =
  let '(e0, obs0) := reset (env w) in
  match while_loop fuel cap obs0 false (PyInt 0) 0
          (mkWorld e0 (agent w) (calls w ++ [EnvReset])) with
  | Finished (done, test_r, t) w1 =>
      let w2 := mkWorld (env w1) (stop_episode (agent w1)) (calls w1 ++ [AgentStopEpisode]) in
      match (if done then builtin_float (iou (env w1)) else builtin_float (PyInt 0)) with
      | Ok iou_ =>
          match builtin_float (max_iou (env w1)) with
          | Ok max_iou_ =>
              match builtin_float test_r with
              | Ok score =>
                  Finished (scores ++ [PyFloat score])
                    (mkWorld (env w1) (stop_episode (agent w1))
                       ((calls w1 ++ [AgentStopEpisode]) ++
                        [LoggerInfo (mkLogRecord "evaluation episode %s length:%s R:%s IoU:%s Max_IoU:%s"
                           [VNum (PyInt i); VNum (PyInt t); VNum test_r;
                            VNum (PyFloat iou_); VNum (PyFloat max_iou_)])]))
              | Err x => Raised x w2
              end
          | Err x => Raised x w2
          end
      | Err x => Raised x w2
      end
  | Raised x w1 => Raised x w1
  | OutOfFuel => OutOfFuel
  end.
Proof.
  unfold episode, bind at 1, env_reset.
  destruct (reset (env w)) as [e0 obs0].
  unfold bind at 1.
  destruct (while_loop fuel cap obs0 false (PyInt 0) 0 _) as [[[done test_r] t] w1|x w1|];
    try reflexivity.
  simpl. unfold bind, agent_stop_episode, modify, gets, lift, logger_info, ret. simpl.
  destruct done; simpl.
  - destruct (builtin_float (iou (env w1))); simpl; [|reflexivity].
    destruct (builtin_float (max_iou (env w1))); simpl; [|reflexivity].
    destruct (builtin_float test_r); reflexivity.
  - change (int_to_double 0) with (Ok (S754_zero false)). simpl.
    destruct (builtin_float (max_iou (env w1))); simpl; [|reflexivity].
    destruct (builtin_float test_r); reflexivity.
Qed.

(** What a finished episode did. *)
Lemma episode_finished fuel cap i scores w scores' w' :
  episode fuel cap i scores w = Finished scores' w' ->
  exists (e : EpisodeRun) w1,
    while_loop fuel cap (snd (reset (env w))) false (PyInt 0) 0
      (mkWorld (fst (reset (env w))) (agent w) (calls w ++ [EnvReset]))
      = Finished (run_done e, run_return e, Z.of_nat (run_length e)) w1 /\
    run_index e = i /\
    env w' = env w1 /\
    agent w' = stop_episode (agent w1) /\
    calls w' = calls w ++ calls_of e /\
    scores' = scores ++ [PyFloat (run_score e)] /\
    builtin_float (run_return e) = Ok (run_score e) /\
    builtin_float (max_iou (env w1)) = Ok (run_max_iou e) /\
    (if run_done e then builtin_float (iou (env w1)) = Ok (run_iou e)
     else cap = Some (Z.of_nat (run_length e)) /\ run_iou e = S754_zero false).
Proof.
  rewrite episode_eq.
  destruct (reset (env w)) as [e0 obs0]. simpl.
  destruct (while_loop fuel cap obs0 false (PyInt 0) 0 _)
    as [[[done test_r] t] w1|x w1|] eqn:Hloop; try discriminate.
  destruct (if done then _ else _) as [iou_|] eqn:Hiou; [|discriminate].
  destruct (builtin_float (max_iou (env w1))) as [max_iou_|] eqn:Hmax; [|discriminate].
  destruct (builtin_float test_r) as [score|] eqn:Hscore; [|discriminate].
  intros [= <- <-].
  destruct (while_loop_finished _ _ _ _ _ _ _ _ _ _ _ Hloop) as (k & Ht & Hc & Hstop & _).
  rewrite Z.add_0_l in Ht. subst t.
  exists (mkEpisodeRun i k done test_r iou_ max_iou_ score), w1. simpl.
  split; [reflexivity|].
  repeat (split; [reflexivity|]).
  split.
  { unfold calls_of, log_of. simpl in *. rewrite Hc, <- !app_assoc. reflexivity. }
  repeat (split; [reflexivity|]).
  split; [exact Hscore|]. split; [exact Hmax|].
  destruct done; [exact Hiou|]. simpl in Hstop.
  destruct cap as [m|]; [|discriminate]. simpl in Hstop.
  apply Z.eqb_eq in Hstop. subst m. split; [reflexivity|].
  vm_compute in Hiou. congruence.
Qed.

Lemma episode_raised fuel cap i scores w x w' :
  episode fuel cap i scores w = Raised x w' -> x = OverflowError.
Proof.
  rewrite episode_eq.
  destruct (reset (env w)) as [e0 obs0].
  destruct (while_loop fuel cap obs0 false (PyInt 0) 0 _)
    as [[[done test_r] t] w1|y w1|] eqn:Hloop; try discriminate.
  - destruct (if done then _ else _) as [iou_|y] eqn:Hiou.
    + destruct (builtin_float (max_iou (env w1))) as [max_iou_|y] eqn:Hmax.
      * destruct (builtin_float test_r) as [score|y] eqn:Hscore; [discriminate|].
        intros [= <- _]. eapply builtin_float_error; exact Hscore.
      * intros [= <- _]. eapply builtin_float_error; exact Hmax.
    + intros [= <- _]. destruct done; eapply builtin_float_error; exact Hiou.
  - intros [= <- _]. eapply while_loop_raised; exact Hloop.
Qed.

Lemma episode_enough_fuel fuel m i scores w :
  0 <= m -> (Z.to_nat m <= fuel)%nat ->
  episode fuel (Some m) i scores w <> OutOfFuel.
Proof.
  intros Hm Hfuel. rewrite episode_eq.
  destruct (reset (env w)) as [e0 obs0].
  destruct (while_loop fuel (Some m) obs0 false (PyInt 0) 0 _)
    as [[[done test_r] t] w1|y w1|] eqn:Hloop.
  - destruct (if done then _ else _); [|discriminate].
    destruct (builtin_float (max_iou (env w1))); [|discriminate].
    destruct (builtin_float test_r); discriminate.
  - discriminate.
  - exfalso. revert Hloop. apply while_loop_enough_fuel; [lia|].
    now rewrite Z.sub_0_r.
Qed.

Lemma episode_float fuel cap i scores w :
  float_valued environment ->
  forall x w', episode fuel cap i scores w <> Raised x w'.
Proof.
  intros Hfv x w'. rewrite episode_eq.
  destruct (reset (env w)) as [e0 obs0].
  pose proof (while_loop_float fuel cap Hfv obs0 false (PyInt 0) 0
                (mkWorld e0 (agent w) (calls w ++ [EnvReset])) (or_introl eq_refl)) as Hloop.
  destruct (while_loop fuel cap obs0 false (PyInt 0) 0 _)
    as [[[done test_r] t] w1|y w1|]; [|contradiction|discriminate].
  simpl in Hloop. destruct Hfv as (_ & Hiou & Hmax).
  destruct (builtin_float_safe (iou (env w1)) (or_intror (Hiou _))) as (f1 & ->).
  destruct (builtin_float_safe (max_iou (env w1)) (or_intror (Hmax _))) as (f2 & ->).
  destruct (builtin_float_safe test_r Hloop) as (f3 & ->).
  destruct done; discriminate.
Qed.

Lemma for_episodes_float fuel cap :
  float_valued environment ->
  forall indices scores w x w',
    for_episodes fuel cap indices scores w <> Raised x w'.
Proof.
  intros Hfv.
  induction indices as [|i rest IH]; intros scores w x w'; [discriminate|].
  simpl. unfold bind.
  destruct (episode fuel cap i scores w) as [scores1 w1|y w1|] eqn:Hep.
  - apply IH.
  - exfalso. revert Hep. now apply episode_float.
  - discriminate.
Qed.

(** What a finished run did: one [EpisodeRun] per index, in order. *)
Lemma for_episodes_finished fuel cap :
  forall indices scores w scores' w',
    for_episodes fuel cap indices scores w = Finished scores' w' ->
    exists eps : list EpisodeRun,
      map run_index eps = indices /\
      scores' = scores ++ map (fun e => PyFloat (run_score e)) eps /\
      calls w' = calls w ++ concat (map calls_of eps) /\
      Forall (fun e => builtin_float (run_return e) = Ok (run_score e)) eps.
Proof.
  induction indices as [|i rest IH]; intros scores w scores' w' Hrun.
  - injection Hrun as <- <-. exists []. simpl. rewrite !app_nil_r. auto.
  - simpl in Hrun. unfold bind in Hrun.
    destruct (episode fuel cap i scores w) as [scores1 w1|x w1|] eqn:Hep; try discriminate.
    apply episode_finished in Hep.
    destruct Hep as (e & wl & _ & Hi & _ & _ & Hc & Hs & Hf & _).
    apply IH in Hrun. destruct Hrun as (eps & Hidx & Hscores & Hcalls & Hall).
    exists (e :: eps). simpl.
    split; [congruence|].
    split; [rewrite Hscores, Hs, <- app_assoc; reflexivity|].
    split; [rewrite Hcalls, Hc, <- app_assoc; reflexivity|].
    constructor; assumption.
Qed.

Lemma for_episodes_raised fuel cap :
  forall indices scores w x w',
    for_episodes fuel cap indices scores w = Raised x w' -> x = OverflowError.
Proof.
  induction indices as [|i rest IH]; intros scores w x w' Hrun; [discriminate|].
  simpl in Hrun. unfold bind in Hrun.
  destruct (episode fuel cap i scores w) as [scores1 w1|y w1|] eqn:Hep; try discriminate.
  - eapply IH; exact Hrun.
  - injection Hrun as <- _. eapply episode_raised; exact Hep.
Qed.

Lemma for_episodes_enough_fuel fuel m :
  0 <= m -> (Z.to_nat m <= fuel)%nat ->
  forall indices scores w,
    for_episodes fuel (Some m) indices scores w <> OutOfFuel.
Proof.
  intros Hm Hfuel.
  induction indices as [|i rest IH]; intros scores w; [discriminate|].
  simpl. unfold bind.
  destruct (episode fuel (Some m) i scores w) as [scores1 w1|y w1|] eqn:Hep.
  - apply IH.
  - discriminate.
  - exfalso. revert Hep. now apply episode_enough_fuel.
Qed.

Lemma log_records_app l1 l2 :
  log_records (l1 ++ l2) = log_records l1 ++ log_records l2.
Proof.
  induction l1 as [|c l1 IH]; simpl; [reflexivity|].
  destruct c; simpl; now rewrite IH.
Qed.

Lemma stop_count_app l1 l2 :
  stop_count (l1 ++ l2) = (stop_count l1 + stop_count l2)%nat.
Proof.
  induction l1 as [|c l1 IH]; simpl; [reflexivity|].
  destruct c; simpl; now rewrite IH.
Qed.

Lemma log_records_steps k : log_records (steps_calls k) = [].
Proof. induction k; simpl; auto. Qed.

Lemma stop_count_steps k : stop_count (steps_calls k) = O.
Proof. induction k; simpl; auto. Qed.

Lemma log_records_calls_of e : log_records (calls_of e) = [log_of e].
Proof.
  unfold calls_of. simpl. now rewrite log_records_app, log_records_steps.
Qed.

Lemma stop_count_calls_of e : stop_count (calls_of e) = 1%nat.
Proof.
  unfold calls_of. simpl. now rewrite stop_count_app, stop_count_steps.
Qed.

Lemma log_records_episodes eps :
  log_records (concat (map calls_of eps)) = map log_of eps.
Proof.
  induction eps as [|e eps IH]; [reflexivity|].
  change (concat (map calls_of (e :: eps))) with (calls_of e ++ concat (map calls_of eps)).
  now rewrite log_records_app, log_records_calls_of, IH.
Qed.

Lemma stop_count_episodes eps :
  stop_count (concat (map calls_of eps)) = length eps.
Proof.
  induction eps as [|e eps IH]; [reflexivity|].
  change (concat (map calls_of (e :: eps))) with (calls_of e ++ concat (map calls_of eps)).
  now rewrite stop_count_app, stop_count_calls_of, IH.
Qed.

Lemma length_range n : length (range n) = Z.to_nat n.
Proof. unfold range. now rewrite length_map, length_seq. Qed.

End EvaluatorFacts.

Section StubFacts.

Import Evaluator.

Local Arguments py_add : simpl never.
Local Arguments builtin_float : simpl never.

(** One episode on the stub that is done after its first step. *)
Lemma stub_episode_one_step R Rf io mx fuel cap i scores e0 a0 cs :
  py_add (PyInt 0) R = Ok R ->
  builtin_float R = Ok Rf ->
  cap <> Some 0 ->
  @episode _ _ _ _ (stub_env R 1 io mx) stub_agent (S fuel) cap i scores (mkWorld e0 a0 cs)
  = Finished (scores ++ [PyFloat Rf])
      (mkWorld 1%nat (S a0) (cs ++ calls_of (mkEpisodeRun i 1 true R io mx Rf))).
Proof.
  intros Hadd Hf Hcap.
  assert (Hat : at_cap 0 cap = false).
  { destruct cap as [m|]; [|reflexivity]. unfold at_cap.
    apply Z.eqb_neq. congruence. }
  rewrite episode_eq. simpl reset. cbv iota beta.
  rewrite (loop_body _ _ _ _ _ _ Hat). simpl.
  rewrite Hadd, while_loop_eq. simpl. unfold ret. rewrite Hf.
  unfold calls_of, log_of. simpl. rewrite <- !app_assoc. reflexivity.
Qed.

(** With an environment that is never done and no cap, no amount of fuel
    lets the loop finish. *)
Lemma endless_loop fuel :
  forall z t w,
    @while_loop _ _ _ _ (endless_env (PyInt 1)) stub_agent fuel None tt false (PyInt z) t w
    = OutOfFuel.
Proof.
  induction fuel as [|fuel IH]; intros z t w.
  - reflexivity.
  - rewrite loop_body by reflexivity. simpl. apply IH.
Qed.

End StubFacts.

(** C3.  An episode that finishes logs one record.  Its Max_IoU field is
    [float(env.max_iou)] read from the environment as the loop left it.  Its
    IoU field is [float(env.iou)] of that environment when the loop stopped
    with [done] true, and the double 0.0 when it stopped with [done] false,
    which happens only when the step counter has reached
    [max_episode_len]. *)
Theorem reported_iou_of_episode {E A Obs Act : Type}
    {environment : Evaluator.Environment E Obs Act} {agent_ops : Evaluator.Agent A Obs Act}
    fuel cap i scores (w : Evaluator.world) scores' w' :
  Evaluator.episode fuel cap i scores w = Finished scores' w' ->
  exists (e : Evaluator.EpisodeRun) w1,
    Evaluator.while_loop fuel cap (snd (Evaluator.reset (Evaluator.env w))) false (PyInt 0) 0
      (Evaluator.mkWorld (fst (Evaluator.reset (Evaluator.env w))) (Evaluator.agent w)
         (Evaluator.calls w ++ [Evaluator.EnvReset]))
      = Finished (Evaluator.run_done e, Evaluator.run_return e,
                  Z.of_nat (Evaluator.run_length e)) w1 /\
    Evaluator.env w' = Evaluator.env w1 /\
    Evaluator.log_records (Evaluator.calls w')
      = Evaluator.log_records (Evaluator.calls w) ++ [Evaluator.log_of e] /\
    Evaluator.run_index e = i /\
    builtin_float (Evaluator.max_iou (Evaluator.env w')) = Ok (Evaluator.run_max_iou e) /\
    (Evaluator.run_done e = true ->
       builtin_float (Evaluator.iou (Evaluator.env w')) = Ok (Evaluator.run_iou e)) /\
    (Evaluator.run_done e = false ->
       cap = Some (Z.of_nat (Evaluator.run_length e)) /\
       Evaluator.run_iou e = S754_zero false).
Proof.
  intros Hep. apply episode_finished in Hep.
  destruct Hep as (e & w1 & Hloop & Hi & Henv & _ & Hc & _ & _ & Hmax & Hiou).
  exists e, w1.
  split; [exact Hloop|]. split; [exact Henv|].
  split; [now rewrite Hc, log_records_app, log_records_calls_of|].
  split; [exact Hi|]. rewrite Henv. split; [exact Hmax|].
  destruct (Evaluator.run_done e); split; intros Hd; try discriminate; assumption.
Qed.

(** C6.  On a stub whose first step ends the episode with reward [R], five
    episodes return five scores [float(R)] and log five records, indices 0
    to 4, each with length 1 and return [R].  In general a run that returns
    gives one score and one log record per index of [range(n_episodes)], in
    order, the score of an episode being the [float] of its return; and on
    an environment whose rewards and attributes are floats, with a cap [m]
    and [m] units of fuel, the run does return such a list. *)
Theorem five_stub_episodes_then_any_run :
  (forall R Rf io mx fuel cap,
     py_add (PyInt 0) R = Ok R ->
     builtin_float R = Ok Rf ->
     cap <> Some 0 ->
     (1 <= fuel)%nat ->
     exists w',
       Evaluator.stub_run R 1 io mx fuel 5 cap = Finished (repeat (PyFloat Rf) 5) w' /\
       Evaluator.log_records (Evaluator.calls w')
         = map (fun i => Evaluator.log_of (Evaluator.mkEpisodeRun i 1 true R io mx Rf))
               [0; 1; 2; 3; 4]) /\
  (forall (E A Obs Act : Type) (environment : Evaluator.Environment E Obs Act)
          (agent_ops : Evaluator.Agent A Obs Act)
          fuel n_steps n_episodes cap (w : Evaluator.world) scores w',
     Evaluator.run_localization_evaluation_episodes fuel n_steps n_episodes cap w
       = Finished scores w' ->
     exists eps : list Evaluator.EpisodeRun,
       length eps = Z.to_nat n_episodes /\
       map Evaluator.run_index eps = Evaluator.range n_episodes /\
       scores = map (fun e => PyFloat (Evaluator.run_score e)) eps /\
       Evaluator.log_records (Evaluator.calls w')
         = Evaluator.log_records (Evaluator.calls w) ++ map Evaluator.log_of eps /\
       Forall (fun e => builtin_float (Evaluator.run_return e) = Ok (Evaluator.run_score e)) eps) /\
  (forall (E A Obs Act : Type) (environment : Evaluator.Environment E Obs Act)
          (agent_ops : Evaluator.Agent A Obs Act)
          m fuel n_steps n_episodes (w : Evaluator.world),
     Evaluator.float_valued environment ->
     0 <= m -> (Z.to_nat m <= fuel)%nat ->
     exists scores w',
       Evaluator.run_localization_evaluation_episodes fuel n_steps n_episodes (Some m) w
         = Finished scores w' /\
       length scores = Z.to_nat n_episodes).
Proof.
  split; [|split].
  - intros R Rf io mx fuel cap Hadd Hf Hcap Hfuel.
    destruct fuel as [|fuel]; [lia|].
    unfold Evaluator.stub_run, Evaluator.run_localization_evaluation_episodes.
    change (Evaluator.range 5) with [0; 1; 2; 3; 4].
    cbn [Evaluator.for_episodes]. unfold bind.
    rewrite !(stub_episode_one_step R Rf io mx fuel cap) by assumption.
    eexists. split; [reflexivity|].
    cbn [Evaluator.calls]. rewrite !log_records_app, !log_records_calls_of. reflexivity.
  - intros E A Obs Act environment agent_ops fuel n_steps n cap w scores w' Hrun.
    apply for_episodes_finished in Hrun.
    destruct Hrun as (eps & Hidx & Hscores & Hcalls & Hall).
    exists eps.
    split; [rewrite <- (length_map Evaluator.run_index), Hidx; apply length_range|].
    split; [exact Hidx|]. split; [exact Hscores|].
    split; [now rewrite Hcalls, log_records_app, log_records_episodes|exact Hall].
  - intros E A Obs Act environment agent_ops m fuel n_steps n w Hfv Hm Hfuel.
    unfold Evaluator.run_localization_evaluation_episodes.
    destruct (Evaluator.for_episodes fuel (Some m) (Evaluator.range n) [] w)
      as [scores w'|x w'|] eqn:Hrun.
    + exists scores, w'. split; [reflexivity|].
      apply for_episodes_finished in Hrun.
      destruct Hrun as (eps & Hidx & -> & _).
      rewrite app_nil_l, length_map, <- (length_map Evaluator.run_index), Hidx.
      apply length_range.
    + exfalso. revert Hrun. now apply for_episodes_float.
    + exfalso. revert Hrun. now apply for_episodes_enough_fuel.
Qed.

(** C7.  One episode on a stub that pays the integer reward 1 and is done
    after one step.  The score that is returned is the float 1.0, and the IoU
    and Max_IoU fields of the log record are plain floats, but its R field
    is the integer 1: line 200 formats [test_r] itself, not the
    [float(test_r)] that line 199 appends to the scores. *)
Theorem logged_return_is_not_converted :
  let io := S754_finite false 7385903388887613 (-53) in
  let mx := S754_finite false 8196551321814303 (-53) in
  exists w' r,
    Evaluator.stub_run (PyInt 1) 1 io mx 1 1 None
      = Finished [PyFloat (S754_finite false 4503599627370496 (-52))] w' /\
    Evaluator.log_records (Evaluator.calls w') = [r] /\
    Evaluator.args r
      = [VNum (PyInt 0); VNum (PyInt 1); VNum (PyInt 1); VNum (PyFloat io); VNum (PyFloat mx)] /\
    map is_plain_float (Evaluator.args r) = [false; false; false; true; true].
Proof.
  cbv zeta. eexists. eexists.
  split; [vm_compute; reflexivity|].
  split; [reflexivity|]. split; reflexivity.
Qed.

(** C8.  A run that returns is a sequence of [n_episodes] episodes, each of
    which is a reset, the steps of its loop, then exactly one call to
    [stop_episode] and the log record, whether the loop stopped on [done]
    or at the cap; so [stop_episode] is called [n_episodes] times in all. *)
Theorem stop_episode_once_per_episode {E A Obs Act : Type}
    {environment : Evaluator.Environment E Obs Act} {agent_ops : Evaluator.Agent A Obs Act}
    fuel n_steps n_episodes cap (w : Evaluator.world) scores w' :
  Evaluator.run_localization_evaluation_episodes fuel n_steps n_episodes cap w
    = Finished scores w' ->
  exists eps : list Evaluator.EpisodeRun,
    length eps = Z.to_nat n_episodes /\
    Evaluator.calls w' = Evaluator.calls w ++ concat (map Evaluator.calls_of eps) /\
    Forall (fun e =>
              Evaluator.calls_of e
                = Evaluator.EnvReset :: Evaluator.steps_calls (Evaluator.run_length e)
                    ++ [Evaluator.AgentStopEpisode; Evaluator.LoggerInfo (Evaluator.log_of e)] /\
              Evaluator.stop_count (Evaluator.calls_of e) = 1%nat) eps /\
    Evaluator.stop_count (Evaluator.calls w')
      = (Evaluator.stop_count (Evaluator.calls w) + Z.to_nat n_episodes)%nat.
Proof.
  intros Hrun. apply for_episodes_finished in Hrun.
  destruct Hrun as (eps & Hidx & _ & Hcalls & _).
  assert (Hlen : length eps = Z.to_nat n_episodes).
  { rewrite <- (length_map Evaluator.run_index), Hidx. apply length_range. }
  exists eps. split; [exact Hlen|]. split; [exact Hcalls|]. split.
  - apply Forall_forall. intros e _. split; [reflexivity|apply stop_count_calls_of].
  - now rewrite Hcalls, stop_count_app, stop_count_episodes, Hlen.
Qed.

(** C10.  With a natural number [m] as [max_episode_len] and [m] units of
    fuel, the loop of an episode does not run out of fuel, and when it
    finishes its counter [t], which started at 0, is the number of
    iterations made, at most [m], with [done] true or [t = m]; it stopped at
    the first [done]: every step before the last reported [done] false and
    the last one reported the [done] that the loop returns.  Hence the
    whole function ends for every [n_episodes].  Without a cap, on an
    environment that never reports [done], no amount of fuel is enough.  A
    loop entered with [done] true makes no iteration at all. *)
Theorem evaluation_terminates_under_cap :
  (forall (E A Obs Act : Type) (environment : Evaluator.Environment E Obs Act)
          (agent_ops : Evaluator.Agent A Obs Act)
          m fuel (obs : Obs) test_r (w : Evaluator.world),
     0 <= m -> (Z.to_nat m <= fuel)%nat ->
     Evaluator.while_loop fuel (Some m) obs false test_r 0 w <> OutOfFuel /\
     forall done' test_r' t' w',
       Evaluator.while_loop fuel (Some m) obs false test_r 0 w
         = Finished (done', test_r', t') w' ->
       0 <= t' <= m /\
       Evaluator.calls w' = Evaluator.calls w ++ Evaluator.steps_calls (Z.to_nat t') /\
       (done' = true \/ t' = m) /\
       Evaluator.dones (Z.to_nat t') obs (Evaluator.env w) (Evaluator.agent w)
         = match Z.to_nat t' with
           | O => []
           | S j => repeat false j ++ [done']
           end /\
       (t' = 0 -> done' = false)) /\
  (forall (E A Obs Act : Type) (environment : Evaluator.Environment E Obs Act)
          (agent_ops : Evaluator.Agent A Obs Act)
          m fuel n_steps n_episodes (w : Evaluator.world),
     0 <= m -> (Z.to_nat m <= fuel)%nat ->
     Evaluator.run_localization_evaluation_episodes fuel n_steps n_episodes (Some m) w
       <> OutOfFuel) /\
  (forall fuel n_episodes,
     1 <= n_episodes ->
     Evaluator.endless_run (PyInt 1) fuel n_episodes = OutOfFuel) /\
  (forall (E A Obs Act : Type) (environment : Evaluator.Environment E Obs Act)
          (agent_ops : Evaluator.Agent A Obs Act)
          fuel cap (obs : Obs) test_r t (w : Evaluator.world),
     Evaluator.while_loop fuel cap obs true test_r t w = Finished (true, test_r, t) w).
Proof.
  split; [|split; [|split]].
  - intros E A Obs Act environment agent_ops m fuel obs test_r w Hm Hfuel. split.
    + apply while_loop_enough_fuel; [lia|]. now rewrite Z.sub_0_r.
    + intros done' test_r' t' w' Hrun.
      pose proof (while_loop_within_cap _ _ _ _ _ _ _ _ _ _ _ Hm Hrun) as Hle.
      pose proof (while_loop_dones _ _ _ _ _ _ _ _ _ _ _ Hrun) as (j & Htj & Hj).
      apply while_loop_finished in Hrun.
      destruct Hrun as (k & Ht & Hc & Hstop & _).
      rewrite Z.add_0_l in Ht, Htj. subst t'.
      apply Nat2Z.inj in Htj. subst j.
      rewrite Nat2Z.id. split; [lia|]. split; [exact Hc|].
      split.
      { destruct done'; [now left|right].
        simpl in Hstop. now apply Z.eqb_eq in Hstop. }
      destruct k as [|k]; [split; [reflexivity|now intros _]|].
      split; [exact (proj2 Hj)|]. lia.
  - intros E A Obs Act environment agent_ops m fuel n_steps n w Hm Hfuel.
    now apply for_episodes_enough_fuel.
  - intros fuel n Hn.
    unfold Evaluator.endless_run, Evaluator.run_localization_evaluation_episodes, Evaluator.range.
    destruct (Z.to_nat n) as [|k] eqn:Hk; [lia|].
    cbn [seq map Evaluator.for_episodes]. unfold bind.
    rewrite episode_eq. simpl Evaluator.reset. cbv iota beta.
    now rewrite endless_loop.
  - intros E A Obs Act environment agent_ops fuel cap obs test_r t w.
    now rewrite while_loop_eq.
Qed.

(** * The theorems at concrete inputs *)

(** A line that the second pattern matches but whose index is not a
    number raises from [int(...)] and stores nothing. *)
Example emit_malformed_index_raises :
  Handler.emit Handler.naive_mean Handler.naive_mean Handler.naive_mean
    "evaluation episode last length:12 R:4.5 IoU:0.82 Max_IoU:0.91" (Handler.sample_store 10 0)
  = Raised ValueError (Handler.sample_store 10 0).
Proof. vm_compute. reflexivity. Qed.

(** A buffer of ten slots has no slot 10. *)
Example emit_index_ten_raises :
  Handler.emit Handler.naive_mean Handler.naive_mean Handler.naive_mean
    "evaluation episode 10 length:12 R:4.5 IoU:0.82 Max_IoU:0.91" (Handler.sample_store 10 0)
  = Raised IndexError (Handler.sample_store 10 0).
Proof. vm_compute. reflexivity. Qed.

Lemma emit_unmatched_is_silent_witness :
  Handler.emit Handler.naive_mean Handler.naive_mean Handler.naive_mean
    "Saved the agent to results/best" (Handler.sample_store 10 2000)
  = Finished tt (Handler.sample_store 10 2000).
Proof.
  apply emit_unmatched_is_silent; vm_compute; reflexivity.
Defined.

Lemma episode_line_fields_witness :
  (Handler.emit_new_best "outdir: results" (Handler.sample_store 10 0)
     = Finished tt (Handler.sample_store 10 0) /\
   Handler.emit_reward Handler.naive_mean Handler.naive_mean Handler.naive_mean
     "outdir: results" (Handler.sample_store 10 0)
     = Finished tt (Handler.sample_store 10 0)) /\
  (let h' := Handler.mkHandler 10
               (<[3%nat := S754_finite false 5066549580791808 (-50)]> (Handler.zeros 10))
               (<[3%nat := S754_finite false 6755399441055744 (-49)]> (Handler.zeros 10))
               (<[3%nat := S754_finite false 7385903388887613 (-53)]> (Handler.zeros 10))
               (<[3%nat := S754_finite false 8196551321814303 (-53)]> (Handler.zeros 10)) in
   Handler.emit Handler.naive_mean Handler.naive_mean Handler.naive_mean
     "evaluation episode 3 length:12 R:4.5 IoU:0.82 Max_IoU:0.91" (Handler.sample_store 10 0)
     = Finished tt (Handler.mkStore h' 0 ([] ++ [])) /\
   Handler.episode_lengths h' !! 3%nat = Some (S754_finite false 6755399441055744 (-49)) /\
   Handler.episode_rewards h' !! 3%nat = Some (S754_finite false 5066549580791808 (-50)) /\
   Handler.episode_ious h' !! 3%nat = Some (S754_finite false 7385903388887613 (-53)) /\
   Handler.episode_max_ious h' !! 3%nat = Some (S754_finite false 8196551321814303 (-53))) /\
  Handler.emit Handler.naive_mean Handler.naive_mean Handler.naive_mean
    "evaluation episode 3 length:12 R:4.5 IoU:0.82 Max_IoU:0.91" (Handler.sample_store 3 0)
    = Raised IndexError (Handler.sample_store 3 0).
Proof.
  pose proof (episode_line_fields Handler.naive_mean Handler.naive_mean Handler.naive_mean)
    as (_ & _ & _ & _ & _ & _ & Hnone & _ & _ & Hstore & Hshort & _).
  split; [|split].
  - apply Hnone; vm_compute; reflexivity.
  - apply (Hstore (Handler.sample_store 10 0)).
    + vm_compute. intuition discriminate.
    + vm_compute. reflexivity.
  - apply (Hshort (Handler.sample_store 3 0)).
    + vm_compute. intuition discriminate.
    + vm_compute. discriminate.
Defined.

Lemma aggregates_share_agent_step_witness :
  exists st' new_best agg,
    Handler.emit Handler.naive_mean Handler.naive_mean Handler.naive_mean
      "evaluation episode 2 length:12 R:4.5 IoU:0.82 Max_IoU:0.91" (Handler.sample_store 3 500)
      = Finished tt st' /\
    Handler.summary_writer st' = [] ++ new_best ++ agg /\
    Forall (fun s => Handler.tag s = "evaluation_new_best_score"%string) new_best /\
    map Handler.tag agg = Handler.aggregate_tags /\
    Forall (fun s => Handler.global_step s = 500) agg /\
    Handler.agent_t st' = 500.
Proof.
  apply (aggregates_share_agent_step Handler.naive_mean Handler.naive_mean Handler.naive_mean
           "evaluation episode 2 length:12 R:4.5 IoU:0.82 Max_IoU:0.91" (Handler.sample_store 3 500)).
  - vm_compute. intuition discriminate.
  - vm_compute. discriminate.
  - exists ["2"; "12"; "4.5"; "0.82"; "0.91"]%string,
           (Handler.mkEpisodeResult 2 12 (S754_finite false 5066549580791808 (-50))
              (S754_finite false 7385903388887613 (-53))
              (S754_finite false 8196551321814303 (-53))),
           (S754_finite false 6755399441055744 (-49)).
    repeat split; vm_compute; reflexivity.
Defined.

Lemma reported_iou_of_episode_witness :
  exists scores' w' (e : Evaluator.EpisodeRun),
    Evaluator.stub_episode (PyFloat (S754_finite false 5066549580791808 (-50))) 5
      (S754_finite false 7385903388887613 (-53)) (S754_finite false 8196551321814303 (-53))
      10 (Some 3) = Finished scores' w' /\
    Evaluator.log_records (Evaluator.calls w') = [] ++ [Evaluator.log_of e] /\
    Evaluator.run_done e = false /\
    Evaluator.run_iou e = S754_zero false /\
    Evaluator.run_length e = 3%nat.
Proof.
  evaluated (Evaluator.stub_episode (PyFloat (S754_finite false 5066549580791808 (-50))) 5
               (S754_finite false 7385903388887613 (-53))
               (S754_finite false 8196551321814303 (-53)) 10 (Some 3)) Hep.
  unfold Evaluator.stub_episode in Hep.
  destruct (reported_iou_of_episode _ _ _ _ _ _ _ Hep)
    as (e & w1 & Hloop & _ & Hlog & _ & _ & _ & Hcap).
  eexists _, _, e. split; [exact Hep|]. split; [exact Hlog|].
  evaluate_left Hloop. injection Hloop as Hd _ Hl _.
  split; [congruence|].
  split; [apply Hcap; congruence|].
  apply Nat2Z.inj. rewrite <- Hl. reflexivity.
Defined.

Lemma five_stub_episodes_then_any_run_witness :
  exists w',
    Evaluator.stub_run (PyFloat (S754_finite false 5066549580791808 (-50))) 1
      (S754_finite false 7385903388887613 (-53)) (S754_finite false 8196551321814303 (-53))
      1 5 None
    = Finished (repeat (PyFloat (S754_finite false 5066549580791808 (-50))) 5) w' /\
    Evaluator.log_records (Evaluator.calls w')
      = map (fun i => Evaluator.log_of
                        (Evaluator.mkEpisodeRun i 1 true
                           (PyFloat (S754_finite false 5066549580791808 (-50)))
                           (S754_finite false 7385903388887613 (-53))
                           (S754_finite false 8196551321814303 (-53))
                           (S754_finite false 5066549580791808 (-50))))
            [0; 1; 2; 3; 4].
Proof.
  apply (proj1 five_stub_episodes_then_any_run);
    [reflexivity | reflexivity | discriminate | lia].
Defined.

Lemma stop_episode_once_per_episode_witness :
  exists scores w',
    Evaluator.stub_run (PyInt 1) 2 (S754_zero false) (S754_zero false) 4 3 (Some 1)
      = Finished scores w' /\
    Evaluator.stop_count (Evaluator.calls w') = 3%nat /\
    Evaluator.agent w' = 3%nat.
Proof.
  evaluated (Evaluator.stub_run (PyInt 1) 2 (S754_zero false) (S754_zero false) 4 3 (Some 1)) Hrun.
  unfold Evaluator.stub_run in Hrun.
  destruct (stop_episode_once_per_episode _ _ _ _ _ _ _ Hrun) as (eps & _ & _ & _ & Hcount).
  eexists _, _. split; [exact Hrun|]. split; [exact Hcount|reflexivity].
Defined.

Lemma evaluation_terminates_under_cap_witness :
  Evaluator.stub_run (PyInt 1) 9 (S754_zero false) (S754_zero false) 4 3 (Some 4) <> OutOfFuel /\
  Evaluator.endless_run (PyInt 1) 1000 1 = OutOfFuel /\
  (forall done' test_r' t' w',
     @Evaluator.while_loop nat nat unit unit
       (Evaluator.stub_env (PyInt 1) 2 (S754_zero false) (S754_zero false))
       Evaluator.stub_agent 4 (Some 4) tt false (PyInt 0) 0 (Evaluator.mkWorld O O [])
       = Finished (done', test_r', t') w' ->
     0 <= t' <= 4 /\
     Evaluator.calls w' = [] ++ Evaluator.steps_calls (Z.to_nat t') /\
     (done' = true \/ t' = 4) /\
     @Evaluator.dones nat nat unit unit
       (Evaluator.stub_env (PyInt 1) 2 (S754_zero false) (S754_zero false))
       Evaluator.stub_agent (Z.to_nat t') tt O O
       = match Z.to_nat t' with
         | O => []
         | S j => repeat false j ++ [done']
         end /\
     (t' = 0 -> done' = false)).
Proof.
  split; [|split].
  - apply (proj1 (proj2 evaluation_terminates_under_cap)); [lia | vm_compute; lia].
  - apply (proj1 (proj2 (proj2 evaluation_terminates_under_cap))). lia.
  - apply (proj1 evaluation_terminates_under_cap nat nat unit unit
             (Evaluator.stub_env (PyInt 1) 2 (S754_zero false) (S754_zero false))
             Evaluator.stub_agent 4 4%nat tt (PyInt 0) (Evaluator.mkWorld O O []));
      [lia | vm_compute; lia].
Defined.

(** The loop on the stub that is done at its second step, with a cap of
    four: two iterations, and the flags of its steps are false, true. *)
Example loop_stops_at_first_done :
  @Evaluator.while_loop nat nat unit unit
    (Evaluator.stub_env (PyInt 1) 2 (S754_zero false) (S754_zero false))
    Evaluator.stub_agent 4 (Some 4) tt false (PyInt 0) 0 (Evaluator.mkWorld O O [])
  = Finished (true, PyInt 2, 2)
      (Evaluator.mkWorld 2%nat O
         [Evaluator.AgentAct; Evaluator.EnvStep; Evaluator.AgentAct; Evaluator.EnvStep]) /\
  @Evaluator.dones nat nat unit unit
    (Evaluator.stub_env (PyInt 1) 2 (S754_zero false) (S754_zero false))
    Evaluator.stub_agent 4 tt O O
  = [false; true; true; true].
Proof. split; vm_compute; reflexivity. Qed.

(** * Further properties of the handler *)

Section HandlerMore.

Import Handler.

Variables np_mean np_median np_var : list float -> float.

Local Abbreviation emit := (Handler.emit np_mean np_median np_var).
Local Abbreviation emit_reward := (Handler.emit_reward np_mean np_median np_var).
Local Abbreviation emit_all := (Handler.emit_all np_mean np_median np_var).
Local Abbreviation aggregates := (Handler.aggregates np_mean np_median np_var).

(** The buffers after the four assignments of lines 150-153 at slot [k]. *)
Local Abbreviation stored h k r lf :=
  (mkHandler (eval_run_count h)
     (<[k := episode_reward r]> (episode_rewards h))
     (<[k := lf]> (episode_lengths h))
     (<[k := episode_iou r]> (episode_ious h))
     (<[k := episode_max_iou r]> (episode_max_ious h))).

Lemma assign_located field set i v k f st :
  np_index (length (field (self st))) i = Ok k ->
  builtin_float v = Ok f ->
  assign field set i v st =
  Finished tt (mkStore (set (<[k := f]> (field (self st))) (self st))
                       (agent_t st) (summary_writer st)).
Proof.
  intros Hk Hf.
  unfold assign, bind, gets, lift, np_setitem, update_self, modify.
  now rewrite Hk, Hf.
Qed.

Lemma assign_not_located field set i v e st :
  np_index (length (field (self st))) i = Err e ->
  assign field set i v st = Raised e st.
Proof.
  intros Hk. unfold assign, bind, gets, lift, np_setitem. now rewrite Hk.
Qed.

(** The second block of [emit] on a well-formed handler, case by case. *)
Lemma emit_reward_eq message st :
  well_formed (self st) ->
  emit_reward message st =
  match Re.search Re.reward_re message with
  | None => Finished tt st
  | Some gs =>
      match episode_fields gs with
      | Err e => Raised e st
      | Ok r =>
          match np_index (Z.to_nat (eval_run_count (self st))) (episode_number r) with
          | Err e => Raised e st
          | Ok k =>
              match int_to_double (episode_length r) with
              | Err e => Raised e st
              | Ok lf =>
                  let h := stored (self st) k r lf in
                  Finished tt
                    (mkStore h (agent_t st)
                       (summary_writer st ++
                        (if episode_number r =? eval_run_count (self st) - 1
                         then aggregates h (agent_t st) else [])))
              end
          end
      end
  end.
Proof.
  intros Hwf.
  destruct st as [[n rs ls us ms] t w].
  destruct Hwf as (Hn & Hrs & Hls & Hus & Hms); simpl in *.
  unfold Handler.emit_reward.
  destruct (Re.search Re.reward_re message) as [gs|]; [|reflexivity].
  unfold bind at 1, lift at 1.
  destruct (episode_fields gs) as [r|e]; [|reflexivity].
  unfold bind at 1.
  destruct (np_index (Z.to_nat n) (episode_number r)) as [k|e] eqn:Hk.
  2:{ rewrite assign_not_located with (e := e); [reflexivity|].
      simpl. now rewrite Hls. }
  destruct (int_to_double (episode_length r)) as [lf|e] eqn:Hlf.
  2:{ unfold assign, bind, gets, lift, np_setitem. simpl.
      rewrite Hls, Hk. simpl. now rewrite Hlf. }
  rewrite (assign_located _ _ _ _ k lf) by (simpl; congruence). simpl.
  unfold bind at 1.
  rewrite (assign_located _ _ _ _ k (episode_reward r)) by (simpl; congruence). simpl.
  unfold bind at 1.
  rewrite (assign_located _ _ _ _ k (episode_iou r)) by (simpl; congruence). simpl.
  unfold bind at 1.
  rewrite (assign_located _ _ _ _ k (episode_max_iou r)) by (simpl; congruence). simpl.
  unfold bind at 1, gets at 1. simpl.
  destruct (episode_number r =? n - 1).
  - unfold bind, gets. rewrite flush_spec. reflexivity.
  - now rewrite app_nil_r.
Qed.

Lemma emit_new_best_eq message st :
  emit_new_best message st =
  Finished tt
    (mkStore (self st) (agent_t st)
       (summary_writer st ++
        match Re.search Re.new_best_re message with
        | Some gs => [mkScalar "evaluation_new_best_score" (VStr (Re.group gs 2)) (agent_t st)]
        | None => []
        end)).
Proof.
  unfold emit_new_best.
  destruct (Re.search Re.new_best_re message); [reflexivity|].
  rewrite app_nil_r. now destruct st.
Qed.

(** What any call of [emit] does to a well-formed store, whether it
    returns or raises. *)
Lemma emit_shape message st :
  well_formed (self st) ->
  exists st' new,
    (emit message st = Finished tt st' \/ exists e, emit message st = Raised e st') /\
    well_formed (self st') /\
    eval_run_count (self st') = eval_run_count (self st) /\
    agent_t st' = agent_t st /\
    summary_writer st' = summary_writer st ++ new /\
    Forall (fun s => global_step s = agent_t st) new.
Proof.
  intros Hwf. unfold Handler.emit, bind.
  rewrite emit_new_best_eq, emit_reward_eq by exact Hwf. simpl.
  set (nb := match Re.search Re.new_best_re message with
             | Some gs => [mkScalar "evaluation_new_best_score" (VStr (Re.group gs 2)) (agent_t st)]
             | None => []
             end).
  assert (Hnb : Forall (fun s => global_step s = agent_t st) nb).
  { unfold nb. destruct (Re.search Re.new_best_re message); repeat constructor. }
  set (st1 := mkStore (self st) (agent_t st) (summary_writer st ++ nb)).
  assert (Hquiet : exists st' new,
             st' = st1 /\ well_formed (self st') /\
             eval_run_count (self st') = eval_run_count (self st) /\
             agent_t st' = agent_t st /\
             summary_writer st' = summary_writer st ++ new /\
             Forall (fun s => global_step s = agent_t st) new).
  { exists st1, nb. subst st1. simpl. auto 10. }
  destruct Hquiet as (sq & newq & Hsq & Hq).
  destruct (Re.search Re.reward_re message) as [gs|].
  2:{ exists sq, newq. split; [left; now rewrite Hsq|exact Hq]. }
  destruct (episode_fields gs) as [r|e].
  2:{ exists sq, newq. split; [right; exists e; now rewrite Hsq|exact Hq]. }
  destruct (np_index _ (episode_number r)) as [k|e].
  2:{ exists sq, newq. split; [right; exists e; now rewrite Hsq|exact Hq]. }
  destruct (int_to_double (episode_length r)) as [lf|e].
  2:{ exists sq, newq. split; [right; exists e; now rewrite Hsq|exact Hq]. }
  eexists. eexists. split; [left; reflexivity|]. simpl.
  destruct Hwf as (Hn & Hrs & Hls & Hus & Hms).
  split; [unfold well_formed; simpl; rewrite !length_insert; auto 10|].
  split; [reflexivity|]. split; [reflexivity|].
  rewrite <- app_assoc. split; [reflexivity|].
  apply Forall_app. split; [exact Hnb|].
  destruct (episode_number r =? _); [|constructor].
  unfold Handler.aggregates. repeat constructor.
Qed.

(** X2.  The flush is tied to the index, not to a count of episodes: over
    any sequence of episode lines with indices inside the buffers, seven
    scalars are written each time the index [eval_run_count - 1] comes by,
    so a repeated last index flushes again and a sequence without it writes
    nothing. *)
Theorem flushes_follow_last_index messages indices st :
  well_formed (self st) ->
  Forall2 episode_line messages indices ->
  Forall (fun i => 0 <= i < eval_run_count (self st)) indices ->
  exists st' new,
    emit_all messages st = Finished tt st' /\
    summary_writer st' = summary_writer st ++ new /\
    length new = (7 * flush_count (eval_run_count (self st)) indices)%nat /\
    Forall (fun s => In (tag s) aggregate_tags) new.
Proof.
  intros Hwf Hlines. revert st Hwf.
  induction Hlines as [|m i messages indices Hline Hrest IH]; intros st Hwf Hidx.
  - exists st, []. simpl. unfold ret. rewrite app_nil_r. auto.
  - inversion Hidx as [|? ? Hi Hidx']; subst.
    destruct (emit_episode_line np_mean np_median np_var m i st Hwf Hline Hi)
      as (st1 & He & Hwf1 & Hn1 & Ht1 & Hw1).
    destruct (IH st1 Hwf1) as (st2 & new & He2 & Hw2 & Hlen & Htags).
    { now rewrite Hn1. }
    exists st2. eexists.
    simpl. unfold bind. rewrite He, He2.
    split; [reflexivity|].
    rewrite Hw2, Hw1, <- app_assoc. split; [reflexivity|].
    rewrite Hn1 in Hlen. cbn [flush_count].
    destruct (i =? eval_run_count (self st) - 1).
    + split; [rewrite length_app, Hlen; unfold Handler.aggregates; simpl; lia|].
      apply Forall_app. split; [|exact Htags].
      unfold Handler.aggregates. repeat (constructor; [simpl; auto 10|]). constructor.
    + split; [exact Hlen|exact Htags].
Qed.

(** X3.  A message on which [emit] raises changes no buffer: the conversions
    of lines 144-148 and the index check of the first assignment come
    before any write, and on buffers of one size the three later
    assignments cannot fail.  Only the new-best scalar of the first block
    may have been written. *)
Theorem emit_raising_keeps_buffers message st e st' :
  well_formed (self st) ->
  emit message st = Raised e st' ->
  self st' = self st /\
  agent_t st' = agent_t st /\
  (summary_writer st' = summary_writer st \/
   exists text,
     summary_writer st'
       = summary_writer st ++ [mkScalar "evaluation_new_best_score" (VStr text) (agent_t st)]).
Proof.
  intros Hwf. unfold Handler.emit, bind.
  rewrite emit_new_best_eq, emit_reward_eq by exact Hwf. simpl.
  assert (Hw : forall st1,
    st1 = mkStore (self st) (agent_t st)
            (summary_writer st ++
             match Re.search Re.new_best_re message with
             | Some gs => [mkScalar "evaluation_new_best_score" (VStr (Re.group gs 2)) (agent_t st)]
             | None => []
             end) ->
    self st1 = self st /\ agent_t st1 = agent_t st /\
    (summary_writer st1 = summary_writer st \/
     exists text,
       summary_writer st1
         = summary_writer st ++ [mkScalar "evaluation_new_best_score" (VStr text) (agent_t st)])).
  { intros st1 ->. simpl. split; [reflexivity|]. split; [reflexivity|].
    destruct (Re.search Re.new_best_re message) as [gs|].
    - right. now exists (Re.group gs 2).
    - left. apply app_nil_r. }
  destruct (Re.search Re.reward_re message) as [gs|]; [|discriminate].
  destruct (episode_fields gs) as [r|x]; [|intros [= _ <-]; now apply Hw].
  destruct (np_index _ (episode_number r)) as [k|x]; [|intros [= _ <-]; now apply Hw].
  destruct (int_to_double (episode_length r)) as [lf|x]; [discriminate|].
  intros [= _ <-]. now apply Hw.
Qed.

(** X4.  An episode line with an index inside the buffers writes its four
    values into that slot and into no other: the slot then holds the
    reward, the length as a double, the iou and the max_iou, and every
    other slot of every buffer is as before. *)
Theorem emit_writes_one_slot message gs r lf st :
  well_formed (self st) ->
  Re.search Re.reward_re message = Some gs ->
  episode_fields gs = Ok r ->
  int_to_double (episode_length r) = Ok lf ->
  0 <= episode_number r < eval_run_count (self st) ->
  exists st',
    emit message st = Finished tt st' /\
    let k := Z.to_nat (episode_number r) in
    episode_rewards (self st') !! k = Some (episode_reward r) /\
    episode_lengths (self st') !! k = Some lf /\
    episode_ious (self st') !! k = Some (episode_iou r) /\
    episode_max_ious (self st') !! k = Some (episode_max_iou r) /\
    forall j, j <> k ->
      episode_rewards (self st') !! j = episode_rewards (self st) !! j /\
      episode_lengths (self st') !! j = episode_lengths (self st) !! j /\
      episode_ious (self st') !! j = episode_ious (self st) !! j /\
      episode_max_ious (self st') !! j = episode_max_ious (self st) !! j.
Proof.
  intros Hwf Hrw Hf Hlf Hi. unfold Handler.emit, bind.
  rewrite emit_new_best_eq, emit_reward_eq by exact Hwf. simpl.
  rewrite Hrw, Hf.
  destruct Hwf as (Hn & Hrs & Hls & Hus & Hms).
  rewrite np_index_in_range by lia. rewrite Hlf.
  eexists. split; [reflexivity|]. simpl.
  rewrite !list_lookup_insert_eq by lia.
  repeat (split; [reflexivity|]).
  intros j Hj. now rewrite !list_lookup_insert_ne by congruence.
Qed.

(** X5.  A negative index counts from the end, as numpy has it: the line
    with index [-k], for [k] from 1 to [eval_run_count], is stored in slot
    [eval_run_count - k] and never flushes, so an index of -1 overwrites
    the last slot without any scalar being written. *)
Theorem emit_negative_index_wraps message gs r lf k st :
  well_formed (self st) ->
  Re.search Re.reward_re message = Some gs ->
  episode_fields gs = Ok r ->
  int_to_double (episode_length r) = Ok lf ->
  episode_number r = - k ->
  1 <= k <= eval_run_count (self st) ->
  exists st',
    emit_reward message st = Finished tt st' /\
    summary_writer st' = summary_writer st /\
    let slot := Z.to_nat (eval_run_count (self st) - k) in
    episode_rewards (self st') !! slot = Some (episode_reward r) /\
    episode_lengths (self st') !! slot = Some lf /\
    episode_ious (self st') !! slot = Some (episode_iou r) /\
    episode_max_ious (self st') !! slot = Some (episode_max_iou r).
Proof.
  intros Hwf Hrw Hf Hlf Hnum Hk.
  rewrite emit_reward_eq by exact Hwf.
  rewrite Hrw, Hf, Hnum.
  destruct Hwf as (Hn & Hrs & Hls & Hus & Hms).
  assert (Hidx : np_index (Z.to_nat (eval_run_count (self st))) (- k)
                 = Ok (Z.to_nat (eval_run_count (self st) - k))).
  { unfold np_index. rewrite Z2Nat.id by lia.
    replace (0 <=? - k) with false by (symmetry; apply Z.leb_gt; lia). simpl.
    replace (- eval_run_count (self st) <=? - k) with true by (symmetry; apply Z.leb_le; lia).
    replace (- k <? 0) with true by (symmetry; apply Z.ltb_lt; lia). simpl.
    f_equal. f_equal. lia. }
  rewrite Hidx, Hlf.
  replace (- k =? eval_run_count (self st) - 1) with false
    by (symmetry; apply Z.eqb_neq; lia).
  eexists. split; [reflexivity|]. simpl.
  split; [apply app_nil_r|].
  rewrite !list_lookup_insert_eq by lia. auto.
Qed.

(** X6.  An index outside the buffers, at or above [eval_run_count] or below
    its negative, makes the second block raise IndexError and leaves the
    store as it was. *)
Theorem emit_index_outside_raises message gs r st :
  well_formed (self st) ->
  Re.search Re.reward_re message = Some gs ->
  episode_fields gs = Ok r ->
  (eval_run_count (self st) <= episode_number r \/
   episode_number r < - eval_run_count (self st)) ->
  emit_reward message st = Raised IndexError st.
Proof.
  intros Hwf Hrw Hf Hout.
  rewrite emit_reward_eq by exact Hwf.
  rewrite Hrw, Hf.
  destruct Hwf as (Hn & _).
  unfold np_index. rewrite Z2Nat.id by lia.
  destruct Hout as [Hhigh|Hlow].
  - replace (episode_number r <? eval_run_count (self st)) with false
      by (symmetry; apply Z.ltb_ge; lia).
    replace (episode_number r <? 0) with false by (symmetry; apply Z.ltb_ge; lia).
    now rewrite !andb_false_r.
  - replace (0 <=? episode_number r) with false by (symmetry; apply Z.leb_gt; lia).
    replace (- eval_run_count (self st) <=? episode_number r) with false
      by (symmetry; apply Z.leb_gt; lia).
    reflexivity.
Qed.

(** X19.  [__init__] gives the handler four buffers of [eval_run_count]
    slots each, whatever the memory held, and raises ValueError from
    [np.empty] when [eval_run_count] is negative. *)
Theorem init_gives_sized_buffers n j1 j2 j3 j4 :
  (n < 0 -> init n j1 j2 j3 j4 = Err ValueError) /\
  (0 <= n ->
   exists h,
     init n j1 j2 j3 j4 = Ok h /\
     well_formed h /\
     eval_run_count h = n).
Proof.
  split; intros Hn; unfold init, np_empty.
  - now replace (n <? 0) with true by (symmetry; apply Z.ltb_lt; lia).
  - replace (n <? 0) with false by (symmetry; apply Z.ltb_ge; lia). simpl.
    eexists. split; [reflexivity|].
    split; [unfold well_formed; simpl; rewrite !length_map, !length_seq; auto|].
    reflexivity.
Qed.

(** X7.  The step hook and the handler attribute every scalar to the agent's
    own counter.  Over any sequence of hook calls and log records handled
    while that counter stands still, whether the sequence is handled to the
    end or stops at a record on which [emit] raises, the writer only grows,
    every scalar added carries the counter as its step (never the [step]
    argument of the hook), and the buffers keep their size. *)
Theorem writer_steps_follow_agent evs st :
  well_formed (self st) ->
  exists st' new,
    (StepHook.process np_mean np_median np_var evs st = Finished tt st' \/
     exists e, StepHook.process np_mean np_median np_var evs st = Raised e st') /\
    well_formed (self st') /\
    eval_run_count (self st') = eval_run_count (self st) /\
    agent_t st' = agent_t st /\
    summary_writer st' = summary_writer st ++ new /\
    Forall (fun s => global_step s = agent_t st) new.
Proof.
  revert st. induction evs as [|ev rest IH]; intros st Hwf.
  - exists st, []. simpl. unfold ret. rewrite app_nil_r. auto 10.
  - assert (Hone : exists st1 new1,
              (StepHook.handle np_mean np_median np_var ev st = Finished tt st1 \/
               exists e, StepHook.handle np_mean np_median np_var ev st = Raised e st1) /\
              well_formed (self st1) /\
              eval_run_count (self st1) = eval_run_count (self st) /\
              agent_t st1 = agent_t st /\
              summary_writer st1 = summary_writer st ++ new1 /\
              Forall (fun s => global_step s = agent_t st) new1).
    { destruct ev as [q l step|message].
      - eexists. eexists. split; [left; reflexivity|]. simpl.
        rewrite <- app_assoc. simpl.
        split; [exact Hwf|]. repeat (split; [reflexivity|]).
        repeat constructor.
      - apply emit_shape. exact Hwf. }
    destruct Hone as (st1 & new1 & Hrun & Hwf1 & Hn1 & Ht1 & Hw1 & Hs1).
    simpl. unfold bind.
    destruct Hrun as [Hrun|(e & Hrun)]; rewrite Hrun.
    + destruct (IH st1 Hwf1) as (st2 & new2 & Hrun2 & Hwf2 & Hn2 & Ht2 & Hw2 & Hs2).
      exists st2, (new1 ++ new2).
      split; [exact Hrun2|]. split; [exact Hwf2|].
      split; [congruence|]. split; [congruence|].
      split; [rewrite Hw2, Hw1, <- app_assoc; reflexivity|].
      apply Forall_app. split; [exact Hs1|].
      rewrite Ht1 in Hs2. exact Hs2.
    + exists st1, new1. split; [right; now exists e|]. auto 10.
Qed.

End HandlerMore.

(** * Patterns and texts *)

Section TextFacts.

Import Re Text.

Local Open Scope string_scope.

Lemma take_drop k s : take k s ++ drop k s = s.
Proof.
  revert s. induction k as [|k IH]; intros [|c s]; simpl; try reflexivity.
  now rewrite IH.
Qed.

Lemma append_assoc (a b c : string) : (a ++ b) ++ c = a ++ (b ++ c).
Proof. induction a as [|x a IH]; simpl; [reflexivity|now rewrite IH]. Qed.

Lemma append_empty_r (a : string) : a ++ "" = a.
Proof. induction a as [|x a IH]; simpl; [reflexivity|now rewrite IH]. Qed.

Lemma strip_prefix_some l s rest : strip_prefix l s = Some rest -> s = l ++ rest.
Proof.
  revert s. induction l as [|a l IH]; intros s; simpl.
  - now intros [= ->].
  - destruct s as [|b s]; [discriminate|].
    destruct (Ascii.eqb_spec a b) as [->|]; [|discriminate].
    intros Hs. now rewrite (IH _ Hs).
Qed.

Lemma strip_prefix_append l rest : strip_prefix l (l ++ rest) = Some rest.
Proof.
  induction l as [|a l IH]; simpl; [reflexivity|].
  now rewrite Ascii.eqb_refl.
Qed.

Lemma take_space_free k s : (k <= run_length s)%nat -> space_free (take k s) = true.
Proof.
  revert s. induction k as [|k IH]; intros [|c s] Hk; simpl in *; try reflexivity.
  destruct (non_space c); simpl in *; [|lia].
  apply IH. lia.
Qed.

(** What a group that matched has captured. *)
Lemma backtrack_some k cont s gs :
  backtrack k cont s = Some gs ->
  exists j gs', (j <= k)%nat /\ gs = take j s :: gs' /\ cont (drop j s) = Some gs'.
Proof.
  induction k as [|k IH]; cbn [backtrack].
  - destruct (cont (drop 0 s)) as [gs'|] eqn:Hc; [|discriminate].
    intros [= <-]. exists O, gs'. auto.
  - destruct (cont (drop (S k) s)) as [gs'|] eqn:Hc.
    + intros [= <-]. exists (S k), gs'. auto.
    + intros Hb. destruct (IH Hb) as (j & gs' & Hj & Hgs & Hcont).
      exists j, gs'. split; [lia|]. auto.
Qed.

Lemma match_here_space_free ps :
  forall s gs, match_here ps s = Some gs -> Forall (fun g => space_free g = true) gs.
Proof.
  induction ps as [|[l|] ps IH]; intros s gs; simpl.
  - intros [= <-]. constructor.
  - destruct (strip_prefix l s); [apply IH|discriminate].
  - intros Hb. apply backtrack_some in Hb.
    destruct Hb as (j & gs' & Hj & -> & Hcont).
    constructor; [now apply take_space_free|]. eapply IH; exact Hcont.
Qed.

Lemma match_here_render ps :
  forall s gs, match_here ps s = Some gs -> exists post, s = render ps gs ++ post.
Proof.
  induction ps as [|[l|] ps IH]; intros s gs; simpl.
  - intros [= <-]. now exists s.
  - destruct (strip_prefix l s) as [rest|] eqn:Hl; [|discriminate].
    intros Hm. destruct (IH _ _ Hm) as (post & Hpost).
    exists post. rewrite (strip_prefix_some _ _ _ Hl), Hpost. now rewrite append_assoc.
  - intros Hb. apply backtrack_some in Hb.
    destruct Hb as (j & gs' & Hj & -> & Hcont).
    destruct (IH _ _ Hcont) as (post & Hpost).
    exists post. rewrite append_assoc, <- Hpost. now rewrite take_drop.
Qed.

(** X8.  What a group captures never contains a space: every group of every
    match found by [re.search] with patterns of this kind is free of
    spaces, so the fields handed to [int(...)] and [float(...)], and the
    new-best text handed to the writer, are single words. *)
Theorem captured_groups_have_no_space ps s gs :
  search ps s = Some gs -> Forall (fun g => space_free g = true) gs.
Proof.
  induction s as [|c s IH]; simpl.
  - destruct (match_here ps "") as [gs'|] eqn:Hm; [|discriminate].
    intros [= <-]. eapply match_here_space_free; exact Hm.
  - destruct (match_here ps (String c s)) as [gs'|] eqn:Hm.
    + intros [= <-]. eapply match_here_space_free; exact Hm.
    + exact IH.
Qed.

(** X9.  A message that a pattern matches contains the pattern's text
    with the captured groups in place of the groups: it is some prefix, the
    literals and the captured groups in turn, and some suffix. *)
Theorem matched_message_has_pattern_shape ps s gs :
  search ps s = Some gs -> exists pre post, s = pre ++ render ps gs ++ post.
Proof.
  induction s as [|c s IH]; simpl.
  - destruct (match_here ps "") as [gs'|] eqn:Hm; [|discriminate].
    intros [= <-]. destruct (match_here_render _ _ _ Hm) as (post & Hpost).
    exists "", post. exact Hpost.
  - destruct (match_here ps (String c s)) as [gs'|] eqn:Hm.
    + intros [= <-]. destruct (match_here_render _ _ _ Hm) as (post & Hpost).
      exists "", post. exact Hpost.
    + intros Hs. destruct (IH Hs) as (pre & post & Hpp).
      exists (String c pre), post. simpl. now rewrite <- Hpp.
Qed.

Local Abbreviation digits := DecimalString.NilEmpty.string_of_uint.

Lemma digit_run_acc d :
  forall acc cnt, exists cnt',
    digit_run (digits d) (Zpos acc) cnt = (Zpos (Pos.of_uint_acc d acc), cnt', "").
Proof.
  induction d as [|d IH|d IH|d IH|d IH|d IH|d IH|d IH|d IH|d IH|d IH]; intros acc cnt;
    [now exists cnt|..];
    cbn [DecimalString.NilEmpty.string_of_uint digit_run Pos.of_uint_acc];
    match goal with
    | |- context [digit_of ?c] =>
        let v := eval vm_compute in (digit_of c) in change (digit_of c) with v
    end;
    cbv iota beta;
    match goal with
    | |- context [digit_run _ ?a _] =>
        match goal with
        | |- context [Pos.of_uint_acc d ?b] => replace a with (Zpos b) by lia
        end
    end;
    apply IH.
Qed.

Lemma digit_run_zero d :
  forall cnt, exists cnt',
    digit_run (digits d) 0 cnt = (Z.of_N (Pos.of_uint d), cnt', "").
Proof.
  induction d as [|d IH|d IH|d IH|d IH|d IH|d IH|d IH|d IH|d IH|d IH]; intros cnt;
    [now exists cnt|..];
    cbn [DecimalString.NilEmpty.string_of_uint digit_run Pos.of_uint];
    match goal with
    | |- context [digit_of ?c] =>
        let v := eval vm_compute in (digit_of c) in change (digit_of c) with v
    end;
    cbv iota beta;
    [apply IH | apply digit_run_acc ..].
Qed.

Lemma digitpart_digits d :
  d <> Decimal.Nil ->
  exists cnt, digitpart 0 (digits d) = Some (Z.of_N (Pos.of_uint d), cnt, "").
Proof.
  intros Hd.
  destruct d as [|d|d|d|d|d|d|d|d|d|d]; [congruence|..];
    cbn [DecimalString.NilEmpty.string_of_uint digitpart Pos.of_uint];
    match goal with
    | |- context [digit_of ?c] =>
        let v := eval vm_compute in (digit_of c) in change (digit_of c) with v
    end;
    cbv iota beta;
    match goal with
    | |- context [digit_run _ ?a _] => let v := eval vm_compute in a in change a with v
    end;
    [destruct (digit_run_zero d 1) as (cnt & ->)
    |destruct (digit_run_acc d 1 1) as (cnt & ->)
    |destruct (digit_run_acc d 2 1) as (cnt & ->)
    |destruct (digit_run_acc d 3 1) as (cnt & ->)
    |destruct (digit_run_acc d 4 1) as (cnt & ->)
    |destruct (digit_run_acc d 5 1) as (cnt & ->)
    |destruct (digit_run_acc d 6 1) as (cnt & ->)
    |destruct (digit_run_acc d 7 1) as (cnt & ->)
    |destruct (digit_run_acc d 8 1) as (cnt & ->)
    |destruct (digit_run_acc d 9 1) as (cnt & ->)];
    now exists cnt.
Qed.

Lemma digitpart_to_uint p :
  exists cnt, digitpart 0 (digits (Pos.to_uint p)) = Some (Zpos p, cnt, "").
Proof.
  destruct (digitpart_digits (Pos.to_uint p) (DecimalPos.Unsigned.to_uint_nonnil p))
    as (cnt & Hd).
  exists cnt. now rewrite Hd, DecimalPos.Unsigned.of_to.
Qed.

Lemma lstrip_digits d : lstrip (digits d) = digits d.
Proof. destruct d; reflexivity. Qed.

Lemma rstrip_digits d : rstrip (digits d) = digits d.
Proof.
  induction d as [|d IH|d IH|d IH|d IH|d IH|d IH|d IH|d IH|d IH|d IH];
    [reflexivity|..];
    cbn [DecimalString.NilEmpty.string_of_uint rstrip]; rewrite IH;
    now destruct (digits d).
Qed.

Lemma sign_of_digits d : sign_of (digits d) = (false, digits d).
Proof. destruct d; reflexivity. Qed.

Lemma digits_nonempty d : d <> Decimal.Nil -> digits d <> "".
Proof. destruct d; simpl; congruence. Qed.

Lemma space_free_digits d : space_free (digits d) = true.
Proof.
  induction d as [|d IH|d IH|d IH|d IH|d IH|d IH|d IH|d IH|d IH|d IH];
    [reflexivity|..]; cbn [DecimalString.NilEmpty.string_of_uint space_free];
    now rewrite IH.
Qed.

Lemma space_free_str_int z : space_free (str_int z) = true.
Proof.
  destruct z as [|p|p]; [reflexivity|apply space_free_digits|].
  cbn [str_int space_free]. now rewrite space_free_digits.
Qed.

(** X10.  [int(str(z))] is [z] for every integer: the decimal text of an
    index or of a length, as the evaluator's log line carries it, converts
    back to the same number. *)
Theorem int_of_str_int z : builtin_int (str_int z) = Ok z.
Proof.
  destruct z as [|p|p]; [reflexivity|..]; unfold builtin_int, strip, str_int.
  - rewrite lstrip_digits, rstrip_digits, sign_of_digits.
    now destruct (digitpart_to_uint p) as (cnt & ->).
  - cbn [lstrip]. change (is_space "-") with false. cbv iota.
    cbn [rstrip]. rewrite rstrip_digits.
    pose proof (digits_nonempty _ (DecimalPos.Unsigned.to_uint_nonnil p)) as Hne.
    destruct (digits (Pos.to_uint p)) as [|c r] eqn:Hd; [congruence|].
    rewrite <- Hd. cbn [sign_of]. change (Ascii.eqb "-" "-") with true. cbv iota.
    now destruct (digitpart_to_uint p) as (cnt & ->).
Qed.

Lemma run_length_append g rest :
  space_free g = true ->
  (rest = "" \/ exists x, rest = String " " x) ->
  run_length (g ++ rest) = String.length g.
Proof.
  intros Hg Hrest. induction g as [|c g IH]; simpl in *.
  - destruct Hrest as [->|(x & ->)]; reflexivity.
  - apply andb_true_iff in Hg. destruct Hg as [-> Hg]. now rewrite IH.
Qed.

Lemma take_length g x : take (String.length g) (g ++ x) = g.
Proof. induction g as [|c g IH]; simpl; [now destruct x|now rewrite IH]. Qed.

Lemma drop_length g x : drop (String.length g) (g ++ x) = x.
Proof. induction g as [|c g IH]; simpl; [now destruct x|exact IH]. Qed.

Lemma backtrack_first k cont s gs :
  cont (drop k s) = Some gs -> backtrack k cont s = Some (take k s :: gs).
Proof. intros Hc. destruct k; cbn [backtrack]; now rewrite Hc. Qed.

Lemma match_group_then g ps x gs :
  space_free g = true ->
  match_here ps (String " " x) = Some gs ->
  match_here (Group :: ps) (g ++ String " " x) = Some (g :: gs).
Proof.
  intros Hg Hm. cbn [match_here].
  rewrite run_length_append by eauto.
  rewrite backtrack_first with (gs := gs) by now rewrite drop_length.
  now rewrite take_length.
Qed.

Lemma match_group_last g :
  space_free g = true -> match_here [Group] g = Some [g].
Proof.
  intros Hg. cbn [match_here].
  pose proof (run_length_append g "" Hg (or_introl eq_refl)) as Hrun.
  pose proof (take_length g "") as Htake.
  rewrite append_empty_r in Hrun, Htake.
  rewrite Hrun, backtrack_first with (gs := []) by reflexivity.
  now rewrite Htake.
Qed.

Lemma search_at_start ps s gs : match_here ps s = Some gs -> search ps s = Some gs.
Proof. intros Hm. destruct s; simpl; now rewrite Hm. Qed.

Lemma match_lit l ps rest : match_here (Lit l :: ps) (l ++ rest) = match_here ps rest.
Proof.
  change (match_here (Lit l :: ps) (l ++ rest))
    with (match strip_prefix l (l ++ rest) with
          | Some r => match_here ps r
          | None => None
          end).
  now rewrite strip_prefix_append.
Qed.

Lemma match_group_lit g l ps rest gs :
  space_free g = true ->
  (exists l', l = String " " l') ->
  match_here ps rest = Some gs ->
  match_here (Group :: Lit l :: ps) (g ++ (l ++ rest)) = Some (g :: gs).
Proof.
  intros Hg (l' & ->) Hm.
  change (String " " l' ++ rest) with (String " " (l' ++ rest)).
  apply match_group_then; [exact Hg|].
  change (String " " (l' ++ rest)) with (String " " l' ++ rest).
  now rewrite match_lit.
Qed.

(** X11.  The handler reads back what the evaluator logged.  The record
    of an episode, formatted with the decimal texts of its index and
    length and with any three space-free texts for the return, the iou and
    the max_iou, is a line that the second pattern matches; its groups are
    those five texts, and the index and the length that [emit] converts
    are the episode's own. *)
Theorem logged_line_is_read_back (e : Evaluator.EpisodeRun) r u m rf uf mf :
  space_free r = true -> space_free u = true -> space_free m = true ->
  float_of_string r = Ok rf ->
  float_of_string u = Ok uf ->
  float_of_string m = Ok mf ->
  let i := Evaluator.run_index e in
  let t := Z.of_nat (Evaluator.run_length e) in
  let texts := [str_int i; str_int t; r; u; m]%list in
  exists line,
    format_s (Evaluator.msg (Evaluator.log_of e)) texts = Some line /\
    search reward_re line = Some texts /\
    Handler.episode_fields texts = Ok (Handler.mkEpisodeResult i t rf uf mf).
Proof.
  intros Hr Hu Hm Hrf Huf Hmf. cbv zeta.
  exists ("evaluation episode " ++ (str_int (Evaluator.run_index e) ++
          (" length:" ++ (str_int (Z.of_nat (Evaluator.run_length e)) ++
          (" R:" ++ (r ++ (" IoU:" ++ (u ++ (" Max_IoU:" ++ m))))))))).
  split; [|split].
  - cbn [Evaluator.log_of Evaluator.msg format_s Ascii.eqb Bool.eqb option_map].
    rewrite append_empty_r. reflexivity.
  - apply search_at_start. unfold reward_re.
    rewrite match_lit.
    apply match_group_lit; [apply space_free_str_int|eauto|].
    apply match_group_lit; [apply space_free_str_int|eauto|].
    apply match_group_lit; [exact Hr|eauto|].
    apply match_group_lit; [exact Hu|eauto|].
    apply match_group_last. exact Hm.
  - unfold Handler.episode_fields, Re.group. cbn [nth pred rbind].
    rewrite !int_of_str_int. cbn [rbind]. rewrite Hrf. cbn [rbind].
    rewrite Huf. cbn [rbind]. now rewrite Hmf.
Qed.

End TextFacts.

(** * Further properties of the evaluation runner *)

Section EvaluatorMore.

Import Evaluator.

Context {E A Obs Act : Type} {environment : Environment E Obs Act} {agent_ops : Agent A Obs Act}.

Lemma range_nonpositive n : n <= 0 -> range n = [].
Proof. intros Hn. unfold range. now replace (Z.to_nat n) with O by lia. Qed.

(** X12.  With [n_episodes] zero or negative the loop over [range(n_episodes)]
    has nothing to do: the function returns the empty list and calls
    neither the environment, nor the agent, nor the logger. *)
Theorem no_episode_no_call fuel n_steps n_episodes cap (w : world) :
  n_episodes <= 0 ->
  run_localization_evaluation_episodes fuel n_steps n_episodes cap w = Finished [] w.
Proof.
  intros Hn. unfold run_localization_evaluation_episodes.
  now rewrite range_nonpositive.
Qed.

Lemma episode_zero_cap fuel i scores (w : world) :
  (forall e, is_floating (max_iou e) = true) ->
  exists mx w',
    episode fuel (Some 0) i scores w = Finished (scores ++ [PyFloat (S754_zero false)]) w' /\
    calls w' = calls w ++
      calls_of (mkEpisodeRun i 0 false (PyInt 0) (S754_zero false) mx (S754_zero false)).
Proof.
  intros Hmax. rewrite episode_eq.
  destruct (reset (env w)) as [e0 obs0].
  rewrite while_loop_eq. cbn [orb at_cap Z.eqb ret].
  destruct (builtin_float_safe (max_iou e0) (or_intror (Hmax e0))) as (mx & Hmx).
  cbn [env agent calls]. rewrite Hmx.
  change (builtin_float (PyInt 0)) with (Ok (S754_zero false)). cbv iota beta.
  exists mx. eexists. split; [reflexivity|].
  cbn [calls]. unfold calls_of, log_of. cbn. rewrite <- !app_assoc. reflexivity.
Qed.

Lemma for_episodes_zero_cap fuel :
  (forall e, is_floating (max_iou e) = true) ->
  forall indices scores (w : world),
  exists eps w',
    for_episodes fuel (Some 0) indices scores w
      = Finished (scores ++ map (fun _ => PyFloat (S754_zero false)) eps) w' /\
    map run_index eps = indices /\
    calls w' = calls w ++ concat (map calls_of eps) /\
    Forall (fun e => run_length e = O /\ run_done e = false /\ run_return e = PyInt 0 /\
                     run_iou e = S754_zero false) eps.
Proof.
  intros Hfv. induction indices as [|i rest IH]; intros scores w.
  - exists [], w. simpl. unfold ret. rewrite !app_nil_r. auto.
  - destruct (episode_zero_cap fuel i scores w Hfv) as (mx & w1 & Hep & Hc1).
    destruct (IH (scores ++ [PyFloat (S754_zero false)]) w1) as (eps & w2 & Hrun & Hidx & Hc2 & Hall).
    exists (mkEpisodeRun i 0 false (PyInt 0) (S754_zero false) mx (S754_zero false) :: eps), w2.
    cbn [for_episodes]. unfold bind. rewrite Hep, Hrun.
    split; [now rewrite <- app_assoc|].
    split; [simpl; congruence|].
    split; [rewrite Hc2, Hc1, <- app_assoc; reflexivity|].
    constructor; [simpl; auto|exact Hall].
Qed.

(** X13.  With [max_episode_len] 0 no step is taken.  On an environment
    whose [max_iou] attribute is a float every episode is a reset, a
    [stop_episode] and a log record with length 0, return the integer 0 and
    iou 0.0; [act] and [step] are never called, every score is 0.0, and no
    fuel is needed. *)
Theorem zero_cap_takes_no_step fuel n_steps n_episodes (w : world) :
  (forall e, is_floating (max_iou e) = true) ->
  exists eps w',
    run_localization_evaluation_episodes fuel n_steps n_episodes (Some 0) w
      = Finished (map (fun _ => PyFloat (S754_zero false)) eps) w' /\
    map run_index eps = range n_episodes /\
    calls w' = calls w ++ concat (map calls_of eps) /\
    Forall (fun e => calls_of e = [EnvReset; AgentStopEpisode; LoggerInfo (log_of e)] /\
                     run_length e = O /\ run_done e = false /\
                     run_return e = PyInt 0 /\ run_iou e = S754_zero false) eps.
Proof.
  intros Hfv. unfold run_localization_evaluation_episodes.
  destruct (for_episodes_zero_cap fuel Hfv (range n_episodes) [] w)
    as (eps & w' & Hrun & Hidx & Hc & Hall).
  exists eps, w'. split; [exact Hrun|]. split; [exact Hidx|]. split; [exact Hc|].
  eapply Forall_impl; [exact Hall|].
  intros e (Hl & Hrest). split; [|now split].
  unfold calls_of. now rewrite Hl.
Qed.

Lemma while_loop_negative_cap fuel m :
  m < 0 ->
  forall (obs : Obs) done test_r t (w : world),
    0 <= t ->
    while_loop fuel (Some m) obs done test_r t w = while_loop fuel None obs done test_r t w.
Proof.
  intros Hm. induction fuel as [|fuel IH]; intros obs done test_r t w Ht.
  - rewrite !while_loop_eq. cbn [at_cap].
    now replace (t =? m) with false by (symmetry; apply Z.eqb_neq; lia).
  - assert (Hcap : at_cap t (Some m) = false) by (apply Z.eqb_neq; lia).
    destruct done.
    + now rewrite !while_loop_eq.
    + rewrite (loop_body _ _ _ _ _ _ Hcap), (loop_body fuel None) by reflexivity.
      destruct (act (agent w) obs) as [a action].
      destruct (step (env w) action) as [e r].
      destruct (py_add test_r (snd (fst r))); [|reflexivity].
      apply IH. lia.
Qed.

(** X14.  The cap is tested with [==], so a negative [max_episode_len] is
    never reached: the run is the one that [None] gives, step for step,
    and only [done] can end an episode. *)
Theorem negative_cap_is_no_cap fuel n_steps n_episodes m (w : world) :
  m < 0 ->
  run_localization_evaluation_episodes fuel n_steps n_episodes (Some m) w
  = run_localization_evaluation_episodes fuel n_steps n_episodes None w.
Proof.
  intros Hm. unfold run_localization_evaluation_episodes.
  generalize (@nil pynum) as scores. revert w.
  induction (range n_episodes) as [|i rest IH]; intros w scores; [reflexivity|].
  cbn [for_episodes]. unfold bind.
  assert (Hep : episode fuel (Some m) i scores w = episode fuel None i scores w).
  { rewrite !episode_eq.
    destruct (reset (env w)) as [e0 obs0].
    now rewrite while_loop_negative_cap by lia. }
  rewrite Hep.
  destruct (episode fuel None i scores w); [apply IH|reflexivity..].
Qed.

(** X15.  The return is converted only after the agent has been stopped.
    On an environment whose [iou] and [max_iou] are floats, when the loop
    of an episode ends with a return that [float(...)] cannot take, an
    integer beyond the range of a double, the episode
    raises OverflowError at line 199: [stop_episode] has been called, but
    nothing is appended to the scores and no record reaches the logger. *)
Theorem unconvertible_return_raises_after_stop fuel cap i scores (w w1 : world)
    done test_r t x :
  (forall e, is_floating (iou e) = true) ->
  (forall e, is_floating (max_iou e) = true) ->
  while_loop fuel cap (snd (reset (env w))) false (PyInt 0) 0
    (mkWorld (fst (reset (env w))) (agent w) (calls w ++ [EnvReset]))
    = Finished (done, test_r, t) w1 ->
  builtin_float test_r = Err x ->
  episode fuel cap i scores w
  = Raised OverflowError
      (mkWorld (env w1) (stop_episode (agent w1)) (calls w1 ++ [AgentStopEpisode])).
Proof.
  intros Hiou Hmax Hloop Hx. rewrite episode_eq.
  destruct (reset (env w)) as [e0 obs0]. simpl in Hloop. rewrite Hloop.
  destruct (builtin_float_safe (iou (env w1)) (or_intror (Hiou _))) as (f1 & ->).
  destruct (builtin_float_safe (max_iou (env w1)) (or_intror (Hmax _))) as (f2 & ->).
  rewrite Hx, (builtin_float_error _ _ Hx).
  now destruct done.
Qed.

End EvaluatorMore.

(** * The image paths of [main] *)

Section PathsFacts.

Import Paths.

Local Open Scope string_scope.

Lemma lstrip_pad c n s : lstrip_char c (pad c n ++ s) = lstrip_char c s.
Proof. induction n as [|n IH]; simpl; [reflexivity|]. now rewrite Ascii.eqb_refl. Qed.

Lemma rstrip_snoc c s : rstrip_char c (s ++ String c "") = rstrip_char c s.
Proof.
  induction s as [|a s IH]; simpl.
  - now rewrite Ascii.eqb_refl.
  - now rewrite IH.
Qed.

Lemma rstrip_pad c n : forall s, rstrip_char c (s ++ pad c n) = rstrip_char c s.
Proof.
  induction n as [|n IH]; intros s; simpl.
  - now rewrite append_empty_r.
  - change (String c (pad c n)) with (String c "" ++ pad c n).
    now rewrite <- append_assoc, IH, rstrip_snoc.
Qed.

Lemma lstrip_only c s : only c s = true -> lstrip_char c s = "".
Proof.
  induction s as [|a s IH]; simpl; [reflexivity|].
  destruct (Ascii.eqb a c); simpl; [exact IH|discriminate].
Qed.

Lemma lstrip_append c s t :
  lstrip_char c (s ++ t) = if only c s then lstrip_char c t else lstrip_char c s ++ t.
Proof.
  induction s as [|a s IH]; simpl; [reflexivity|].
  destruct (Ascii.eqb a c); simpl; [exact IH|reflexivity].
Qed.

Lemma strip_pad c a b s : strip_char c (pad c a ++ (s ++ pad c b)) = strip_char c s.
Proof.
  unfold strip_char. rewrite lstrip_pad, lstrip_append.
  destruct (only c s) eqn:Ho.
  - rewrite (lstrip_only _ _ Ho).
    pose proof (lstrip_pad c b "") as Hp. rewrite append_empty_r in Hp.
    now rewrite Hp.
  - apply rstrip_pad.
Qed.

(** X16.  Line 31 strips every dot at either end of an entry, not only a
    leading [./]: entries that differ by dots in front or behind, such as
    [./images/a.png] and [../images/a.png], or [a] and [a.], are given
    the same absolute path.  Lines 29-31 give the same result on the two
    files, the [TypeError] of a file of one line included, and the
    comprehension gives the same list on the two one-dimensional arrays,
    whatever their length. *)
Theorem dots_at_the_ends_are_dropped imagefile_path a b entries :
  absolute_paths imagefile_path (map (fun s => pad "." a ++ (s ++ pad "." b)) entries)
  = absolute_paths imagefile_path entries /\
  comprehension (dirname imagefile_path)
    (OneDim (map (fun s => pad "." a ++ (s ++ pad "." b)) entries))
  = comprehension (dirname imagefile_path) (OneDim entries) /\
  map (fun i => dirname imagefile_path ++ strip_char "." i)
    (map (fun s => pad "." a ++ (s ++ pad "." b)) entries)
  = map (fun i => dirname imagefile_path ++ strip_char "." i) entries.
Proof.
  assert (Hmap :
    map (fun i => dirname imagefile_path ++ strip_char "." i)
      (map (fun s => pad "." a ++ (s ++ pad "." b)) entries)
    = map (fun i => dirname imagefile_path ++ strip_char "." i) entries).
  { rewrite map_map. apply map_ext. intros s. now rewrite strip_pad. }
  split; [|split; [|exact Hmap]].
  - unfold absolute_paths, loadtxt.
    destruct entries as [|e1 [|e2 entries]]; [reflexivity..|].
    cbn [map] in *. cbn [comprehension map]. now rewrite Hmap.
  - cbn [comprehension]. now rewrite Hmap.
Qed.












End PathsFacts.

(** * The further properties at concrete inputs *)

Lemma round_flushes_once_witness :
  exists st3,
    Handler.emit_all Handler.naive_mean Handler.naive_mean Handler.naive_mean
      ["evaluation episode 1 length:3 R:4.5 IoU:0.82 Max_IoU:0.91";
       "evaluation episode 2 length:40 R:-2.0 IoU:0.0 Max_IoU:0.25";
       "evaluation episode 0 length:7 R:1.5 IoU:0.5 Max_IoU:0.75"]%string
      (Handler.sample_store 3 7) = Finished tt st3 /\
    length (Handler.summary_writer st3) = 7%nat.
Proof.
  destruct (round_flushes_once Handler.naive_mean Handler.naive_mean Handler.naive_mean
              ["evaluation episode 1 length:3 R:4.5 IoU:0.82 Max_IoU:0.91"%string]
              "evaluation episode 2 length:40 R:-2.0 IoU:0.0 Max_IoU:0.25"%string
              ["evaluation episode 0 length:7 R:1.5 IoU:0.5 Max_IoU:0.75"%string]
              (Handler.sample_store 3 7))
    as (st1 & st2 & st3 & _ & _ & _ & Hw2 & _ & Hw3 & Hall).
  - show_well_formed.
  - constructor.
    + exists 1. split; [show_episode_line|vm_compute; intuition discriminate].
    + constructor; [|constructor].
      exists 0. split; [show_episode_line|vm_compute; intuition discriminate].
  - show_episode_line.
  - vm_compute. discriminate.
  - exists st3. split; [exact Hall|]. now rewrite Hw3, Hw2.
Defined.

Lemma flushes_follow_last_index_witness :
  exists st' new,
    Handler.emit_all Handler.naive_mean Handler.naive_mean Handler.naive_mean
      ["evaluation episode 2 length:40 R:-2.0 IoU:0.0 Max_IoU:0.25";
       "evaluation episode 0 length:7 R:1.5 IoU:0.5 Max_IoU:0.75";
       "evaluation episode 2 length:3 R:4.5 IoU:0.82 Max_IoU:0.91"]%string
      (Handler.sample_store 3 7) = Finished tt st' /\
    Handler.summary_writer st' = [] ++ new /\
    length new = 14%nat /\
    Forall (fun s => In (Handler.tag s) Handler.aggregate_tags) new.
Proof.
  apply (flushes_follow_last_index Handler.naive_mean Handler.naive_mean Handler.naive_mean
           _ [2; 0; 2] (Handler.sample_store 3 7)).
  - show_well_formed.
  - constructor; [show_episode_line|].
    constructor; [show_episode_line|].
    constructor; [show_episode_line|constructor].
  - repeat (constructor; [vm_compute; intuition discriminate|]). constructor.
Defined.

Lemma emit_raising_keeps_buffers_witness :
  exists st',
    Handler.emit Handler.naive_mean Handler.naive_mean Handler.naive_mean
      "The best score is updated 1.0 -> 2.0 evaluation episode last length:1 R:1 IoU:1 Max_IoU:1"
      (Handler.sample_store 10 42) = Raised ValueError st' /\
    Handler.self st' = Handler.self (Handler.sample_store 10 42) /\
    Handler.summary_writer st'
      = [Handler.mkScalar "evaluation_new_best_score" (VStr "2.0") 42].
Proof.
  evaluated (Handler.emit Handler.naive_mean Handler.naive_mean Handler.naive_mean
    "The best score is updated 1.0 -> 2.0 evaluation episode last length:1 R:1 IoU:1 Max_IoU:1"
    (Handler.sample_store 10 42)) Hrun.
  assert (Hwf : Handler.well_formed (Handler.self (Handler.sample_store 10 42)))
    by show_well_formed.
  destruct (emit_raising_keeps_buffers _ _ _ _ _ _ _ Hwf Hrun) as (Hself & _ & _).
  eexists. split; [exact Hrun|].
  split; [exact Hself|reflexivity].
Defined.

Lemma emit_writes_one_slot_witness :
  exists st',
    Handler.emit Handler.naive_mean Handler.naive_mean Handler.naive_mean
      "evaluation episode 1 length:12 R:4.5 IoU:0.82 Max_IoU:0.91" (Handler.sample_store 3 7)
      = Finished tt st' /\
    Handler.episode_rewards (Handler.self st') !! 1%nat
      = Some (S754_finite false 5066549580791808 (-50)) /\
    Handler.episode_lengths (Handler.self st') !! 1%nat
      = Some (S754_finite false 6755399441055744 (-49)) /\
    Handler.episode_rewards (Handler.self st') !! 0%nat = Some (S754_zero false) /\
    Handler.episode_rewards (Handler.self st') !! 2%nat = Some (S754_zero false).
Proof.
  destruct (emit_writes_one_slot Handler.naive_mean Handler.naive_mean Handler.naive_mean
              "evaluation episode 1 length:12 R:4.5 IoU:0.82 Max_IoU:0.91"
              ["1"; "12"; "4.5"; "0.82"; "0.91"]%string
              (Handler.mkEpisodeResult 1 12 (S754_finite false 5066549580791808 (-50))
                 (S754_finite false 7385903388887613 (-53))
                 (S754_finite false 8196551321814303 (-53)))
              (S754_finite false 6755399441055744 (-49))
              (Handler.sample_store 3 7))
    as (st' & Hrun & Hr & Hl & _ & _ & Hother);
    [show_well_formed | vm_compute; reflexivity.. | vm_compute; intuition discriminate |].
  exists st'. split; [exact Hrun|]. split; [exact Hr|]. split; [exact Hl|].
  split.
  - etransitivity; [apply (Hother 0%nat); vm_compute; discriminate|reflexivity].
  - etransitivity; [apply (Hother 2%nat); vm_compute; discriminate|reflexivity].
Defined.

Lemma emit_negative_index_wraps_witness :
  exists st',
    Handler.emit_reward Handler.naive_mean Handler.naive_mean Handler.naive_mean
      "evaluation episode -1 length:12 R:4.5 IoU:0.82 Max_IoU:0.91" (Handler.sample_store 3 7)
      = Finished tt st' /\
    Handler.summary_writer st' = [] /\
    Handler.episode_rewards (Handler.self st') !! 2%nat
      = Some (S754_finite false 5066549580791808 (-50)).
Proof.
  destruct (emit_negative_index_wraps Handler.naive_mean Handler.naive_mean Handler.naive_mean
              "evaluation episode -1 length:12 R:4.5 IoU:0.82 Max_IoU:0.91"
              ["-1"; "12"; "4.5"; "0.82"; "0.91"]%string
              (Handler.mkEpisodeResult (-1) 12 (S754_finite false 5066549580791808 (-50))
                 (S754_finite false 7385903388887613 (-53))
                 (S754_finite false 8196551321814303 (-53)))
              (S754_finite false 6755399441055744 (-49)) 1
              (Handler.sample_store 3 7))
    as (st' & Hrun & Hw & Hr & _);
    [show_well_formed | vm_compute; reflexivity.. | vm_compute; intuition discriminate |].
  exists st'. auto.
Defined.

Lemma emit_index_outside_raises_witness :
  Handler.emit_reward Handler.naive_mean Handler.naive_mean Handler.naive_mean
    "evaluation episode 10 length:12 R:4.5 IoU:0.82 Max_IoU:0.91" (Handler.sample_store 10 7)
  = Raised IndexError (Handler.sample_store 10 7).
Proof.
  apply (emit_index_outside_raises Handler.naive_mean Handler.naive_mean Handler.naive_mean
           _ ["10"; "12"; "4.5"; "0.82"; "0.91"]%string
           (Handler.mkEpisodeResult 10 12 (S754_finite false 5066549580791808 (-50))
              (S754_finite false 7385903388887613 (-53))
              (S754_finite false 8196551321814303 (-53))));
    [show_well_formed | vm_compute; reflexivity.. | left; vm_compute; discriminate].
Defined.

Lemma init_gives_sized_buffers_witness :
  exists h,
    Handler.init 10 (fun _ => S754_nan) (fun _ => S754_nan) (fun _ => S754_nan)
      (fun _ => S754_nan) = Ok h /\
    Handler.well_formed h /\
    Handler.eval_run_count h = 10.
Proof.
  apply (proj2 (init_gives_sized_buffers 10 _ _ _ _)). lia.
Defined.

Lemma writer_steps_follow_agent_witness :
  exists st' new,
    (StepHook.process Handler.naive_mean Handler.naive_mean Handler.naive_mean
       [StepHook.Hook (PyFloat (S754_finite false 5066549580791808 (-50)))
          (PyFloat (S754_zero false)) 123;
        StepHook.Log "evaluation episode 2 length:12 R:4.5 IoU:0.82 Max_IoU:0.91";
        StepHook.Log "evaluation episode last length:12 R:4.5 IoU:0.82 Max_IoU:0.91"]
       (Handler.sample_store 3 500) = Finished tt st' \/
     exists e,
       StepHook.process Handler.naive_mean Handler.naive_mean Handler.naive_mean
         [StepHook.Hook (PyFloat (S754_finite false 5066549580791808 (-50)))
            (PyFloat (S754_zero false)) 123;
          StepHook.Log "evaluation episode 2 length:12 R:4.5 IoU:0.82 Max_IoU:0.91";
          StepHook.Log "evaluation episode last length:12 R:4.5 IoU:0.82 Max_IoU:0.91"]
         (Handler.sample_store 3 500) = Raised e st') /\
    Handler.well_formed (Handler.self st') /\
    Handler.eval_run_count (Handler.self st') = 3 /\
    Handler.agent_t st' = 500 /\
    Handler.summary_writer st' = [] ++ new /\
    Forall (fun s => Handler.global_step s = 500) new.
Proof.
  apply (writer_steps_follow_agent Handler.naive_mean Handler.naive_mean Handler.naive_mean).
  show_well_formed.
Defined.

Lemma captured_groups_have_no_space_witness :
  Forall (fun g => Text.space_free g = true) ["10.0"; "12.5"]%string.
Proof.
  apply (captured_groups_have_no_space Re.new_best_re
           "INFO The best score is updated 10.0 -> 12.5 after 2000 steps").
  vm_compute. reflexivity.
Defined.

Lemma matched_message_has_pattern_shape_witness :
  exists pre post,
    "INFO The best score is updated 10.0 -> 12.5 after 2000 steps"%string
    = String.append pre
        (String.append (Text.render Re.new_best_re ["10.0"; "12.5"]%string) post).
Proof.
  apply matched_message_has_pattern_shape. vm_compute. reflexivity.
Defined.

Lemma logged_line_is_read_back_witness :
  exists line,
    Text.format_s "evaluation episode %s length:%s R:%s IoU:%s Max_IoU:%s"
      ["3"; "12"; "4.5"; "0.82"; "0.91"]%string = Some line /\
    Re.search Re.reward_re line = Some ["3"; "12"; "4.5"; "0.82"; "0.91"]%string /\
    Handler.episode_fields ["3"; "12"; "4.5"; "0.82"; "0.91"]%string
      = Ok (Handler.mkEpisodeResult 3 12 (S754_finite false 5066549580791808 (-50))
              (S754_finite false 7385903388887613 (-53))
              (S754_finite false 8196551321814303 (-53))).
Proof.
  apply (logged_line_is_read_back
           (Evaluator.mkEpisodeRun 3 12 true (PyFloat (S754_finite false 5066549580791808 (-50)))
              (S754_finite false 7385903388887613 (-53))
              (S754_finite false 8196551321814303 (-53))
              (S754_finite false 5066549580791808 (-50)))
           "4.5" "0.82" "0.91"); vm_compute; reflexivity.
Defined.

Lemma no_episode_no_call_witness :
  Evaluator.stub_run (PyInt 1) 1 (S754_zero false) (S754_zero false) 5 0 (Some 3)
  = Finished [] (Evaluator.mkWorld O O []).
Proof.
  apply no_episode_no_call. lia.
Defined.

Lemma zero_cap_takes_no_step_witness :
  exists eps w',
    Evaluator.stub_run (PyInt 1) 1 (S754_zero false) (S754_zero false) 0 3 (Some 0)
      = Finished (map (fun _ => PyFloat (S754_zero false)) eps) w' /\
    map Evaluator.run_index eps = [0; 1; 2] /\
    Evaluator.calls w' = [] ++ concat (map Evaluator.calls_of eps) /\
    Forall (fun e =>
              Evaluator.calls_of e
                = [Evaluator.EnvReset; Evaluator.AgentStopEpisode;
                   Evaluator.LoggerInfo (Evaluator.log_of e)] /\
              Evaluator.run_length e = O /\ Evaluator.run_done e = false /\
              Evaluator.run_return e = PyInt 0 /\
              Evaluator.run_iou e = S754_zero false) eps.
Proof.
  apply (@zero_cap_takes_no_step nat nat unit unit
           (Evaluator.stub_env (PyInt 1) 1 (S754_zero false) (S754_zero false))
           Evaluator.stub_agent 0 None 3 (Evaluator.mkWorld O O [])).
  intros e. reflexivity.
Defined.

Lemma negative_cap_is_no_cap_witness :
  Evaluator.stub_run (PyInt 1) 2 (S754_zero false) (S754_zero false) 5 3 (Some (-1))
  = Evaluator.stub_run (PyInt 1) 2 (S754_zero false) (S754_zero false) 5 3 None.
Proof.
  apply negative_cap_is_no_cap. lia.
Defined.

Lemma unconvertible_return_raises_after_stop_witness :
  Evaluator.stub_episode (PyInt (10 ^ 400)) 1 (S754_zero false) (S754_zero false) 1 None
  = Raised OverflowError
      (Evaluator.mkWorld 1%nat 1%nat
         [Evaluator.EnvReset; Evaluator.AgentAct; Evaluator.EnvStep;
          Evaluator.AgentStopEpisode]).
Proof.
  apply (@unconvertible_return_raises_after_stop nat nat unit unit
           (Evaluator.stub_env (PyInt (10 ^ 400)) 1 (S754_zero false) (S754_zero false))
           Evaluator.stub_agent 1 None 0 [] (Evaluator.mkWorld O O [])
           (Evaluator.mkWorld 1%nat O
              [Evaluator.EnvReset; Evaluator.AgentAct; Evaluator.EnvStep])
           true (PyInt (10 ^ 400)) 1 OverflowError).
  - intros e. reflexivity.
  - intros e. reflexivity.
  - vm_compute. reflexivity.
  - vm_compute. reflexivity.
Defined.



(** A list file of one line: line 31 raises, wherever the file is. *)
Example one_line_list_raises :
  Paths.absolute_paths "data/image_locations.txt" ["./images/a.png"]%string = Paths.TypeError /\
  Paths.absolute_paths "image_locations.txt" ["./images/a.png"]%string = Paths.TypeError /\
  Paths.absolute_paths "data/image_locations.txt" [] = Paths.Resolved [].
Proof. repeat split. Qed.
